(** * AutoKeras: preprocessing layers and input nodes

    A shallow embedding of [autokeras/keras_layers.py] and
    [autokeras/nodes.py].

    Python values are embedded as follows: [int] is [Z], [str] is
    [string], a Python list is a [list], [None]-or-a-value is an
    [option].  A call that may raise returns a [result]; the exception
    carried by [Raise] names the operation that raised it.  Float32
    tensors hold IEEE-754 binary32 values, taken from the kernel's
    specification of floating-point numbers ([spec_float], with 24 bits
    of precision and maximal exponent 128). *)

From Stdlib Require Import ZArith List String Ascii Bool Lia.
From Stdlib Require Import Floats.SpecFloat.
Import ListNotations.

Local Open Scope string_scope.
Local Open Scope Z_scope.
Local Open Scope list_scope.

(* ===================================================================== *)
(** * Exceptions and results *)
(* ===================================================================== *)

(** The exceptions the modelled code can meet. *)
Inductive exn : Type :=
| InvalidArgumentError_split          (* tf.split: no size, or sizes off the axis *)
| InvalidArgumentError_to_number (s : string)
                                      (* tf.strings.to_number: [s] is not a number *)
| InvalidArgumentError_slice          (* tf.slice: the window leaves the tensor *)
| InvalidArgumentError_concat         (* tf.concat: rows or element types differ *)
| InvalidArgumentError_stack          (* tf.stack: shapes differ *)
| ValueError_Concatenate              (* Concatenate layer called on no input *)
| ValueError_constant                 (* tf.constant on a ragged nested list *)
| ValueError_Input                    (* tf.keras.Input without a shape *)
| ValueError_dimension                (* tf.keras.Input: a negative dimension *)
| FailedPreconditionError_lookup      (* a lookup layer that cannot be called *)
| TypeError_len                       (* len(None) *)
| IndexError.                         (* sequence index out of range *)

Inductive result (A : Type) : Type :=
| Ok (a : A)
| Raise (e : exn).
Arguments Ok {A} a.
Arguments Raise {A} e.

Definition bind {A B : Type} (m : result A) (k : A -> result B) : result B :=
  match m with
  | Ok a => k a
  | Raise e => Raise e
  end.

Declare Scope result_scope.
Delimit Scope result_scope with result.
Notation "x <- m ;; k" := (bind m (fun x => k))
  (at level 61, m at next level, right associativity) : result_scope.
Local Open Scope result_scope.

(** Running a fallible function over a list, left to right; the first
    exception ends the traversal. *)
Fixpoint mapM {A B : Type} (f : A -> result B) (l : list A) : result (list B) :=
  match l with
  | [] => Ok []
  | a :: l' =>
      b <- f a ;;
      bs <- mapM f l' ;;
      Ok (b :: bs)
  end.

Definition succeeds {A : Type} (r : result A) : bool :=
  match r with Ok _ => true | Raise _ => false end.

(* ===================================================================== *)
(** * Python list operations *)
(* ===================================================================== *)

Module Py.

(** [len(l)] *)
Definition len {A : Type} (l : list A) : Z := Z.of_nat (List.length l).

(** A slice bound as Python normalises it: a negative bound counts
    from the end, and the result is clamped to [0 .. len]. *)
Definition clamp (n : Z) (i : Z) : Z :=
  if i <? 0 then Z.max 0 (i + n) else Z.min i n.

(** [l[start:stop]] *)
Definition slice {A : Type} (start stop : Z) (l : list A) : list A :=
  let n := len l in
  let lo := clamp n start in
  let hi := clamp n stop in
  skipn (Z.to_nat lo) (firstn (Z.to_nat hi) l).

(** [l * n]: [n] copies of [l] in a row, none when [n <= 0]. *)
Definition mul {A : Type} (l : list A) (n : Z) : list A :=
  List.concat (repeat l (Z.to_nat n)).

(** [l[i]] for a non-negative literal index. *)
Definition getitem {A : Type} (l : list A) (i : nat) : result A :=
  match nth_error l i with
  | Some a => Ok a
  | None => Raise IndexError
  end.

(** [zip(xs, ys)] stops at the shorter of the two. *)
Definition zip {A B : Type} (xs : list A) (ys : list B) : list (A * B) :=
  combine xs ys.

End Py.

(* ===================================================================== *)
(** * Python dictionaries *)
(* ===================================================================== *)

(** The configurations the classes serialise to are dictionaries with
    string keys.  A dictionary is kept as the list of its items in
    insertion order. *)

Module Dict.

(** The values that occur in the configurations modelled here. *)
#[warnings="-register-all"]
Inductive pyval : Type :=
| PNone
| PInt (z : Z)
| PStr (s : string)
| PList (l : list pyval)
| PDict (d : list (string * pyval)).

Definition dict : Type := list (string * pyval).

(** [d.get(k)]: the value under [k], if any. *)
Fixpoint get (d : dict) (k : string) : option pyval :=
  match d with
  | [] => None
  | (k', v) :: rest => if String.eqb k k' then Some v else get rest k
  end.

(** [d[k] = v]: replaces the value of an existing key in place, adds a
    new key at the end. *)
Fixpoint set (d : dict) (k : string) (v : pyval) : dict :=
  match d with
  | [] => [(k, v)]
  | (k', v') :: rest =>
      if String.eqb k k' then (k', v) :: rest else (k', v') :: set rest k v
  end.

(** [d.update(other)], for [other] given by its items in order. *)
Definition update (d : dict) (other : list (string * pyval)) : dict :=
  fold_left (fun acc kv => set acc (fst kv) (snd kv)) other d.

(** [dict(items)] for a list of pairs. *)
Definition of_items (items : list (string * pyval)) : dict :=
  update [] items.

(** [list(d.items())] *)
Definition items (d : dict) : list (string * pyval) := d.

(** A list of strings, or [None], as a value. *)
Definition of_strings (l : option (list string)) : pyval :=
  match l with
  | Some names => PList (map PStr names)
  | None => PNone
  end.

(** A dictionary from strings to strings, or [None], as a value. *)
Definition of_string_dict (d : option (list (string * string))) : pyval :=
  match d with
  | Some types => PDict (map (fun kv => (fst kv, PStr (snd kv))) types)
  | None => PNone
  end.

Definition of_int (z : option Z) : pyval :=
  match z with
  | Some n => PInt n
  | None => PNone
  end.

End Dict.

(* ===================================================================== *)
(** * The tensor framework *)
(* ===================================================================== *)

(** The layers call into TensorFlow.  The operations they use are
    modelled here on plain lists.

    A structured-data batch of shape [(batch, columns)] is kept as the
    list of its columns, each column holding one value per row: the
    split along the last axis into pieces of width one is then the list
    itself, and the concatenation of such pieces along the last axis is
    the list of the pieces.  An integer tensor of shape [(batch, length)]
    of the text layer is kept as the list of its rows; its element type
    is the one the framework infers for the nested list it is made
    from, an integer type, or float32 when the list holds no element. *)

Module TF.

(** ** Float32 *)

Definition float32 : Type := spec_float.
Definition prec : Z := 24.
Definition emax : Z := 128.

(** [tf.math.is_nan], on one element. *)
Definition is_nan (x : float32) : bool :=
  match x with
  | S754_nan => true
  | _ => false
  end.

Definition zero : float32 := S754_zero false.

(** [tf.zeros_like] on a column of floats. *)
Definition zeros_like (xs : list float32) : list float32 :=
  map (fun _ => zero) xs.

(** [tf.where(condition, x, y)] on columns of the same length. *)
Definition where_ {A : Type} (cond : list bool) (xs ys : list A) : list A :=
  map (fun p : bool * (A * A) => if fst p then fst (snd p) else snd (snd p))
      (combine cond (combine xs ys)).

(** [tf.cast(_, tf.float32)] of an integer: rounded to nearest even. *)
Definition cast_float32 (z : Z) : float32 :=
  binary_normalize prec emax z 0 false.

(** The float32 nearest to [m * 10^e], negated when [neg]. *)
Definition decimal_float32 (neg : bool) (m : Z) (e : Z) : float32 :=
  match m with
  | Zpos p =>
      if 0 <=? e
      then binary_normalize prec emax
             (if neg then - (m * 10 ^ e) else m * 10 ^ e) 0 false
      else SFdiv prec emax (S754_finite neg p 0)
             (S754_finite false (Z.to_pos (10 ^ (- e))) 0)
  | _ => S754_zero neg
  end.

(** ** Structured-data tensors, by column *)

Definition Column (A : Type) : Type := list A.
Definition Table (A : Type) : Type := list (Column A).

(** [tf.split(value, [1] * n, axis=-1)]: there must be a size, the list
    [[1] * n] being empty for [n <= 0], and the sizes must add up to
    the size of the last axis. *)
Definition split_ones {A : Type} (value : Table A) (n : Z)
  : result (list (Column A)) :=
  if n <=? 0 then Raise InvalidArgumentError_split
  else if Py.len value =? n then Ok value
  else Raise InvalidArgumentError_split.

(** [tf.keras.layers.Concatenate()(pieces)], along the last axis. *)
Definition Concatenate {A : Type} (pieces : list (Column A))
  : result (Table A) :=
  match pieces with
  | [] => Raise ValueError_Concatenate
  | _ => Ok pieces
  end.

(** [tf.slice(x, [0, index], [-1, 1])]: column [index] of the batch. *)
Definition slice_column {A : Type} (x : Table A) (index : nat)
  : result (Column A) :=
  match nth_error x index with
  | Some c => Ok c
  | None => Raise InvalidArgumentError_slice
  end.

(** ** Integer tensors, by row *)

Definition Matrix : Type := list (list Z).

Definition row_length (m : Matrix) : nat :=
  match m with
  | [] => 0%nat
  | r :: _ => List.length r
  end.

Definition rectangular (m : Matrix) : bool :=
  forallb (fun r => Nat.eqb (List.length r) (row_length m)) m.

(** [tf.constant(rows)] for a nested list of integers: every row must
    have the same length. *)
Definition constant (rows : list (list Z)) : result Matrix :=
  if rectangular rows then Ok rows else Raise ValueError_constant.

(** [t.shape[0]] *)
Definition shape0 (m : Matrix) : Z := Py.len m.

(** Whether a nested list holds an element at all.  The framework
    makes an integer tensor of a nested list of integers that does, and
    a float32 tensor of one that does not. *)
Definition holds_element (m : Matrix) : bool :=
  existsb (fun r => match r with [] => false | _ :: _ => true end) m.

(** [tf.concat([a, b], axis=-1)]: row [i] of the result is row [i] of
    [a] followed by row [i] of [b]; the numbers of rows and the element
    types must agree. *)
Definition concat_last (a b : Matrix) : result Matrix :=
  if Nat.eqb (List.length a) (List.length b)
  then if Bool.eqb (holds_element a) (holds_element b)
       then Ok (map (fun p : list Z * list Z => fst p ++ snd p)
                    (combine a b))
       else Raise InvalidArgumentError_concat
  else Raise InvalidArgumentError_concat.

Definition ones_like (m : Matrix) : Matrix := map (map (fun _ => 1)) m.
Definition zeros_like_int (m : Matrix) : Matrix := map (map (fun _ => 0)) m.

Definition same_shape (a b : Matrix) : bool :=
  Nat.eqb (List.length a) (List.length b)
  && Nat.eqb (row_length a) (row_length b).

(** [tf.stack(ts)]: a new leading axis; all shapes must agree. *)
Definition stack (ts : list Matrix) : result (list Matrix) :=
  match ts with
  | [] => Raise InvalidArgumentError_stack
  | t :: ts' =>
      if forallb (same_shape t) ts' then Ok ts
      else Raise InvalidArgumentError_stack
  end.

(** ** The operations left to the framework *)

(** What the encoding layer needs from the framework and does not
    define itself: the lookup layer of categorical columns, and the
    parser behind [tf.strings.to_number].  The parser is taken per
    element; [None] stands for a string it does not accept, on which the
    operation raises.  Calling a lookup layer gives the index of each
    string, when the layer can be called at all: [StringLookup_call] is
    [None] for a layer on which the call raises, as the framework may
    do for a layer that was never adapted. *)
Record Framework : Type := {
  StringLookup : Type;
  StringLookup_new : StringLookup;
  StringLookup_build : StringLookup -> StringLookup;
  StringLookup_adapt : StringLookup -> list (Column string) -> StringLookup;
  StringLookup_call : StringLookup -> option (string -> Z);
  parse_float : string -> option float32
}.

(** [tf.strings.to_number(column, tf.float32)] *)
Definition to_number (fw : Framework) (column : Column string)
  : result (Column float32) :=
  mapM (fun s => match parse_float fw s with
                 | Some x => Ok x
                 | None => Raise (InvalidArgumentError_to_number s)
                 end) column.

End TF.

(* ===================================================================== *)
(** * keras_layers.py *)
(* ===================================================================== *)

Definition INT : string := "int".
Definition NONE : string := "none".
Definition ONE_HOT : string := "one-hot".

(** ** class MultiCategoryEncoding *)

Module MultiCategoryEncoding.

Section Layer.

Variable fw : TF.Framework.

(** The attributes of a layer object: the tags it was given and the
    list built from them, [None] or a lookup layer per recognised tag. *)
Record t : Type := {
  encoding : list string;
  encoding_layers : list (option (TF.StringLookup fw))
}.

(** The loop of the constructor: one pass over the tags, appending to
    [layers].  A tag that is none of the three appends nothing. *)
Fixpoint init_loop (tags : list string)
    (layers : list (option (TF.StringLookup fw)))
  : list (option (TF.StringLookup fw)) :=
  match tags with
  | [] => layers
  | tag :: rest =>
      init_loop rest
        (if String.eqb tag NONE then layers ++ [None]
         else if String.eqb tag INT
              then layers ++ [Some (TF.StringLookup_new fw)]
         else if String.eqb tag ONE_HOT then layers ++ [None]
         else layers)
  end.

Definition __init__ (encoding : list string) : t :=
  {| encoding := encoding;
     encoding_layers := init_loop encoding [] |}.

Definition build (self : t) : t :=
  {| encoding := encoding self;
     encoding_layers :=
       map (fun encoding_layer =>
              match encoding_layer with
              | Some layer => Some (TF.StringLookup_build fw layer)
              | None => None
              end) (encoding_layers self) |}.

(** The body of the loop of [call], for one piece and its layer. *)
Definition call_column (input_node : TF.Column string)
    (encoding_layer : option (TF.StringLookup fw))
  : result (TF.Column TF.float32) :=
  match encoding_layer with
  | None =>
      number <- TF.to_number fw input_node ;;
      (* Replace NaN with 0. *)
      let imputed :=
        TF.where_ (map TF.is_nan number) (TF.zeros_like number) number in
      Ok imputed
  | Some layer =>
      match TF.StringLookup_call fw layer with
      | Some index => Ok (map (fun s => TF.cast_float32 (index s)) input_node)
      | None => Raise FailedPreconditionError_lookup
      end
  end.

(** [inputs] is the batch itself, the first tensor of the structure
    handed to the layer. *)
Definition call (self : t) (inputs : TF.Table string)
  : result (TF.Table TF.float32) :=
  let input_nodes := inputs in
  split_inputs <- TF.split_ones input_nodes (Py.len (encoding self)) ;;
  output_nodes <-
    mapM (fun p : TF.Column string * option (TF.StringLookup fw) =>
            call_column (fst p) (snd p))
         (Py.zip split_inputs (encoding_layers self)) ;;
  if Py.len output_nodes =? 1
  then (node <- Py.getitem output_nodes 0 ;; Ok [node])
  else TF.Concatenate output_nodes.

(** The loop of [adapt] from position [index] on; [data] is the dataset,
    a list of batches. *)
Fixpoint adapt_loop (index : nat)
    (layers : list (option (TF.StringLookup fw)))
    (data : list (TF.Table string))
  : result (list (option (TF.StringLookup fw))) :=
  match layers with
  | [] => Ok []
  | None :: rest =>
      rest' <- adapt_loop (S index) rest data ;;
      Ok (None :: rest')
  | Some layer :: rest =>
      data_column <- mapM (fun x => TF.slice_column x index) data ;;
      rest' <- adapt_loop (S index) rest data ;;
      Ok (Some (TF.StringLookup_adapt fw layer data_column) :: rest')
  end.

Definition adapt (self : t) (data : list (TF.Table string)) : result t :=
  layers <- adapt_loop 0 (encoding_layers self) data ;;
  Ok {| encoding := encoding self; encoding_layers := layers |}.

(** [base_config] is what [super().get_config()] returns. *)
Definition get_config (base_config : Dict.dict) (self : t) : Dict.dict :=
  let config :=
    [("encoding", Dict.PList (map Dict.PStr (encoding self)))] in
  Dict.of_items (Dict.items base_config ++ Dict.items config).

End Layer.

Arguments get_config {fw} base_config self.
Arguments encoding {fw} _.
Arguments encoding_layers {fw} _.
Arguments build {fw} self.
Arguments call {fw} self inputs.
Arguments call_column {fw} input_node encoding_layer.
Arguments adapt {fw} self data.

End MultiCategoryEncoding.

(** ** class TextVectorizationWithTokenizer *)

(** The tokenizer handed to the layer, by the two methods the layer
    calls on it. *)
Record Tokenizer : Type := {
  tokenize : string -> list string;
  convert_tokens_to_ids : list string -> list Z
}.

Module TextVectorizationWithTokenizer.

Record t : Type := {
  tokenizer : Tokenizer;
  max_seq_len : Z
}.

Definition __init__ (tokenizer : Tokenizer) (max_seq_len : Z) : t :=
  {| tokenizer := tokenizer; max_seq_len := max_seq_len |}.

Definition encode_sentence (self : t) (s : string) : list Z :=
  let tokens := tokenize (tokenizer self) s in
  let tokens := tokens ++ ["[SEP]"] in
  let tokens :=
    if Py.len tokens <? max_seq_len self - 1
    then tokens ++ Py.mul ["[UNK]"] (max_seq_len self - Py.len tokens - 1)
    else Py.slice 0 (max_seq_len self - 1) tokens in
  let encoded_sentence := convert_tokens_to_ids (tokenizer self) tokens in
  encoded_sentence.

(** [input_tensor] is the batch as the layer receives it: one row per
    example, the sentence being the first entry of the row. *)
Definition get_encoded_sentence (self : t) (input_tensor : list (list string))
  : result TF.Matrix :=
  rows <- mapM (fun s => s0 <- Py.getitem s 0 ;; Ok (encode_sentence self s0))
               input_tensor ;;
  TF.constant rows.

Definition bert_encode (self : t) (input_tensor : list (list string))
  : result (list TF.Matrix) :=
  sentence <- get_encoded_sentence self input_tensor ;;
  let cls :=
    Py.mul [convert_tokens_to_ids (tokenizer self) ["[CLS]"]]
           (TF.shape0 sentence) in
  input_word_ids <- TF.concat_last cls sentence ;;
  let input_mask := TF.ones_like input_word_ids in
  let type_cls := TF.zeros_like_int cls in
  let type_s1 := TF.zeros_like_int sentence in
  input_type_ids <- TF.concat_last type_cls type_s1 ;;
  TF.stack [input_word_ids; input_mask; input_type_ids].

End TextVectorizationWithTokenizer.

(* ===================================================================== *)
(** * nodes.py *)
(* ===================================================================== *)

Module Nodes.

(** ** Symbolic inputs *)

Inductive dtype : Type := tf_float32 | tf_string.

(** One dimension of a shape: a size, or [None] when it is not known. *)
Definition Dim : Type := option Z.
Definition Shape : Type := list Dim.

(** The symbolic input made by [tf.keras.Input(shape=..., dtype=...)],
    by the two arguments it was made from. *)
Record KerasInput : Type := {
  input_shape : Shape;
  input_dtype : dtype
}.

(** A dimension the framework accepts: unknown, or not negative. *)
Definition dim_ok (d : Dim) : bool :=
  match d with
  | Some n => 0 <=? n
  | None => true
  end.

(** [tf.keras.Input(shape=shape, dtype=dtype)]: a shape is required,
    and none of its dimensions may be negative. *)
Definition keras_Input (shape : option Shape) (dt : dtype)
  : result KerasInput :=
  match shape with
  | Some sh =>
      if forallb dim_ok sh
      then Ok {| input_shape := sh; input_dtype := dt |}
      else Raise ValueError_dimension
  | None => Raise ValueError_Input
  end.

(** ** The node classes *)

(** The attributes each class adds to those of its base. *)
Inductive Fields : Type :=
| Input
| ImageInput (has_channel_dim : bool)
| TextInput
| StructuredDataInput
    (column_names : option (list string))
    (column_types : option (list (string * string)))
| TimeseriesInput
    (lookback : option Z)
    (column_names : option (list string))
    (column_types : option (list (string * string))).

(** Modelled from the spec: the base class [Node] of
    [autokeras.engine.node], by the one attribute the classes of this
    file read and write, [shape], unknown ([None]) until it is
    resolved. *)
Record Node : Type := {
  shape : option Shape;
  fields : Fields
}.

Definition set_shape (self : Node) (sh : Shape) : Node :=
  {| shape := Some sh; fields := fields self |}.

(** [len(self.shape)] *)
Definition len_shape (self : Node) : result Z :=
  match shape self with
  | Some sh => Ok (Py.len sh)
  | None => Raise TypeError_len
  end.

(** [self.shape[0]] *)
Definition shape_0 (self : Node) : result Dim :=
  match shape self with
  | Some sh => Py.getitem sh 0
  | None => Raise TypeError_len
  end.

(** [build] of each class.  The call returns the symbolic input or
    raises; the node as the call leaves it comes with either outcome,
    since [TimeseriesInput] assigns to [self.shape] before it calls
    [tf.keras.Input]. *)
Definition build (self : Node) : result KerasInput * Node :=
  match fields self with
  | Input | ImageInput _ =>
      (keras_Input (shape self) tf_float32, self)
  | TextInput | StructuredDataInput _ _ =>
      (keras_Input (shape self) tf_string, self)
  | TimeseriesInput lookback _ _ =>
      match len_shape self with
      | Raise e => (Raise e, self)
      | Ok n =>
          if n =? 1
          then match shape_0 self with
               | Raise e => (Raise e, self)
               | Ok d =>
                   let self := set_shape self [lookback; d] in
                   (keras_Input (shape self) tf_float32, self)
               end
          else (keras_Input (shape self) tf_float32, self)
      end
  end.

(** ** Analysers, adapters and preprocessors *)

(** The analyser handed to [config_from_analyser], by the attribute the
    image node reads from it. *)
Record Analyser : Type := {
  analyser_has_channel_dim : bool
}.

(** The adapter handed to [config_from_adapter], by the attributes the
    nodes read from it. *)
Record AdapterState : Type := {
  adapter_lookback : option Z;
  adapter_column_names : option (list string);
  adapter_column_types : option (list (string * string))
}.

(** The adapters and analysers the nodes construct, by class and
    constructor arguments. *)
Inductive Adapter : Type :=
| InputAdapter
| ImageAdapter
| TextInputAdapter
| StructuredDataInputAdapter
    (column_names : option (list string))
    (column_types : option (list (string * string)))
| TimeseriesInputAdapter
    (lookback : option Z)
    (column_names : option (list string))
    (column_types : option (list (string * string))).

Inductive AnalyserClass : Type :=
| InputAnalyser
| ImageAnalyser.

Inductive Preprocessor : Type :=
| AddOneDimension.

Inductive HyperPreprocessor : Type :=
| DefaultHyperPreprocessor (preprocessor : Preprocessor).

(** ** The constructors *)

(** [shape] is the keyword argument passed on to the base class. *)
Definition ImageInput__init__ (shape : option Shape) : Node :=
  {| shape := shape; fields := ImageInput false |}.

Definition StructuredDataInput__init__
    (column_names : option (list string))
    (column_types : option (list (string * string)))
    (shape : option Shape) : Node :=
  {| shape := shape;
     fields := StructuredDataInput column_names column_types |}.

Definition TimeseriesInput__init__
    (lookback : option Z)
    (column_names : option (list string))
    (column_types : option (list (string * string)))
    (shape : option Shape) : Node :=
  {| shape := shape;
     fields := TimeseriesInput lookback column_names column_types |}.

(** ** The other methods *)

Definition get_adapter (self : Node) : Adapter :=
  match fields self with
  | Input => InputAdapter
  | ImageInput _ => ImageAdapter
  | TextInput => TextInputAdapter
  | StructuredDataInput column_names column_types =>
      StructuredDataInputAdapter column_names column_types
  | TimeseriesInput lookback column_names column_types =>
      TimeseriesInputAdapter lookback column_names column_types
  end.

(** Only [ImageInput] overrides [get_analyser]. *)
Definition get_analyser (self : Node) : AnalyserClass :=
  match fields self with
  | ImageInput _ => ImageAnalyser
  | _ => InputAnalyser
  end.

(** Only [ImageInput] overrides [config_from_analyser]; in [Input] the
    method is [pass]. *)
Definition config_from_analyser (self : Node) (analyser : Analyser) : Node :=
  match fields self with
  | ImageInput _ =>
      {| shape := shape self;
         fields := ImageInput (analyser_has_channel_dim analyser) |}
  | _ => self
  end.

Definition get_hyper_preprocessors (self : Node) : list HyperPreprocessor :=
  match fields self with
  | ImageInput has_channel_dim =>
      let hyper_preprocessors := [] in
      if negb has_channel_dim
      then hyper_preprocessors ++ [DefaultHyperPreprocessor AddOneDimension]
      else hyper_preprocessors
  | _ => []
  end.

(** [config_from_adapter]: the method of the base class first, handed
    over as [super_config_from_adapter] since the base class is not in
    this file, then the assignments of the class. *)
Definition config_from_adapter
    (super_config_from_adapter : Node -> AdapterState -> result Node)
    (self : Node) (adapter : AdapterState) : result Node :=
  match fields self with
  | StructuredDataInput _ _ =>
      self <- super_config_from_adapter self adapter ;;
      Ok {| shape := shape self;
            fields := StructuredDataInput (adapter_column_names adapter)
                                          (adapter_column_types adapter) |}
  | TimeseriesInput _ _ _ =>
      self <- super_config_from_adapter self adapter ;;
      Ok {| shape := shape self;
            fields := TimeseriesInput (adapter_lookback adapter)
                                      (adapter_column_names adapter)
                                      (adapter_column_types adapter) |}
  | _ => super_config_from_adapter self adapter
  end.

(** [get_config] of the two classes that define it; [base_config] is
    what [super().get_config()] returns. *)
Definition get_config (base_config : Dict.dict) (self : Node) : Dict.dict :=
  match fields self with
  | StructuredDataInput column_names column_types =>
      Dict.update base_config
        [("column_names", Dict.of_strings column_names);
         ("column_types", Dict.of_string_dict column_types)]
  | TimeseriesInput lookback column_names column_types =>
      Dict.update base_config
        [("lookback", Dict.of_int lookback);
         ("column_names", Dict.of_strings column_names);
         ("column_types", Dict.of_string_dict column_types)]
  | _ => base_config
  end.

End Nodes.

(* ===================================================================== *)
(** * Instances to run the model on *)
(* ===================================================================== *)

(** Concrete stand-ins for what the layers receive from outside, used to
    evaluate the model on examples: a parser for
    [tf.strings.to_number], a lookup layer and a tokenizer.  The
    general statements do not depend on them. *)

Module Reference.

(** ** A parser for float32 literals *)

(** The parser reads a literal with blanks around it: a sign, then
    [nan] or [inf] in any letter case, or a hexadecimal integer after
    [0x], or decimal digits with an optional fraction and an optional
    decimal exponent.  A string of blanks only is read as zero, and a
    number too small for a normal float32 is returned as zero.  The
    empty string and anything else is rejected, and the operation
    raises on it. *)

Definition code (c : ascii) : Z := Z.of_nat (nat_of_ascii c).

Definition is_space (c : ascii) : bool :=
  (code c =? 32) || ((9 <=? code c) && (code c <=? 13)).

Fixpoint skip_spaces (cs : list ascii) : list ascii :=
  match cs with
  | c :: cs' => if is_space c then skip_spaces cs' else cs
  | [] => []
  end.

Definition only_spaces (cs : list ascii) : bool :=
  match skip_spaces cs with
  | [] => true
  | _ => false
  end.

Definition digit (c : ascii) : option Z :=
  if (48 <=? code c) && (code c <=? 57) then Some (code c - 48) else None.

(** Reads a run of digits, continuing the number [acc]; returns the
    number, how many digits were read, and the rest. *)
Fixpoint digits (cs : list ascii) (acc : Z) (count : Z)
  : Z * Z * list ascii :=
  match cs with
  | c :: cs' =>
      match digit c with
      | Some d => digits cs' (10 * acc + d) (count + 1)
      | None => (acc, count, cs)
      end
  | [] => (acc, count, [])
  end.

Definition lower (c : ascii) : Z :=
  if (65 <=? code c) && (code c <=? 90) then code c + 32 else code c.

(** [keyword kw cs]: the rest of [cs] after [kw], letter case ignored. *)
Fixpoint keyword (kw : list ascii) (cs : list ascii) : option (list ascii) :=
  match kw, cs with
  | [], _ => Some cs
  | k :: kw', c :: cs' =>
      if lower c =? code k then keyword kw' cs' else None
  | _ :: _, [] => None
  end.

Definition sign (cs : list ascii) : bool * list ascii :=
  match cs with
  | c :: cs' =>
      if code c =? 45 then (true, cs')
      else if code c =? 43 then (false, cs')
      else (false, cs)
  | [] => (false, [])
  end.

(** An optional exponent part: [e] or [E], a sign, at least one digit. *)
Definition exponent (cs : list ascii) : option (Z * list ascii) :=
  match cs with
  | c :: cs' =>
      if lower c =? 101
      then let (neg, cs1) := sign cs' in
           match digits cs1 0 0 with
           | (e, n, rest) =>
               if n =? 0 then None
               else Some (if neg then - e else e, rest)
           end
      else Some (0, cs)
  | [] => Some (0, [])
  end.

Definition hex_digit (c : ascii) : option Z :=
  match digit c with
  | Some d => Some d
  | None =>
      if (97 <=? lower c) && (lower c <=? 102) then Some (lower c - 87)
      else None
  end.

Fixpoint hex_digits (cs : list ascii) (acc : Z) (count : Z)
  : Z * Z * list ascii :=
  match cs with
  | c :: cs' =>
      match hex_digit c with
      | Some d => hex_digits cs' (16 * acc + d) (count + 1)
      | None => (acc, count, cs)
      end
  | [] => (acc, count, [])
  end.

(** A subnormal result is returned as zero. *)
Definition flush (x : TF.float32) : TF.float32 :=
  match x with
  | S754_finite neg m e =>
      if Zpos m <? 2 ^ 23 then S754_zero neg else x
  | _ => x
  end.

(** The literal after the blanks and the sign. *)
Definition parse_literal (neg : bool) (cs : list ascii)
  : option TF.float32 :=
  match keyword (list_ascii_of_string "nan") cs with
  | Some rest => if only_spaces rest then Some S754_nan else None
  | None =>
      match keyword (list_ascii_of_string "inf") cs with
      | Some rest =>
          if only_spaces rest then Some (S754_infinity neg) else None
      | None =>
          match digits cs 0 0 with
          | (m, n1, cs1) =>
              match (match cs1 with
                     | c :: cs2 =>
                         if code c =? 46 then digits cs2 m 0 else (m, 0, cs1)
                     | [] => (m, 0, cs1)
                     end) with
              | (m, n2, cs3) =>
                  if n1 + n2 =? 0 then None
                  else match exponent cs3 with
                       | Some (e, rest) =>
                           if only_spaces rest
                           then Some (TF.decimal_float32 neg m (e - n2))
                           else None
                       | None => None
                       end
              end
          end
      end
  end.

Definition parse_float32 (s : string) : option TF.float32 :=
  match list_ascii_of_string s with
  | [] => None
  | all =>
      if only_spaces all then Some (S754_zero false)
      else
        let (neg, cs) := sign (skip_spaces all) in
        match keyword (list_ascii_of_string "0x") cs with
        | Some rest =>
            match hex_digits rest 0 0 with
            | (m, n, rest') =>
                if n =? 0 then None
                else if only_spaces rest'
                     then Some (flush (TF.decimal_float32 neg m 0))
                     else None
            end
        | None => option_map flush (parse_literal neg cs)
        end
  end.

(** ** A lookup layer *)

(** A lookup layer is [None] until it is adapted, and then holds its
    vocabulary, in order of first appearance.  A layer that was never
    adapted cannot be called; an adapted layer gives index 0 to a value
    outside its vocabulary and the indices from 1 on to the values of
    the vocabulary. *)
Fixpoint index_of (s : string) (vocabulary : list string) (i : Z) : option Z :=
  match vocabulary with
  | [] => None
  | v :: rest => if String.eqb s v then Some i else index_of s rest (i + 1)
  end.

Definition lookup (vocabulary : list string) (s : string) : Z :=
  match index_of s vocabulary 1 with
  | Some i => i
  | None => 0
  end.

Definition framework : TF.Framework := {|
  TF.StringLookup := option (list string);
  TF.StringLookup_new := None;
  TF.StringLookup_build := fun layer => layer;
  TF.StringLookup_adapt :=
    fun _ data => Some (nodup string_dec (List.concat data));
  TF.StringLookup_call := option_map lookup;
  TF.parse_float := parse_float32
|}.

(** ** A tokenizer *)

(** Splits a sentence at blanks. *)
Fixpoint words (cs : list ascii) (word : string) : list string :=
  match cs with
  | [] => if String.eqb word "" then [] else [word]
  | c :: cs' =>
      if is_space c
      then (if String.eqb word "" then [] else [word]) ++ words cs' ""
      else words cs' (word ++ String c "")%string
  end.

(** The ids of the special tokens are those of the BERT vocabulary. *)
Definition vocab (token : string) : Z :=
  if String.eqb token "[UNK]" then 100
  else if String.eqb token "[CLS]" then 101
  else if String.eqb token "[SEP]" then 102
  else if String.eqb token "[MASK]" then 103
  else if String.eqb token "hi" then 7632
  else if String.eqb token "there" then 2045
  else 100.

Definition tokenizer : Tokenizer := {|
  tokenize := fun s => words (list_ascii_of_string s) "";
  convert_tokens_to_ids := map vocab
|}.

(** A float32 from its sign, mantissa and binary exponent. *)
Definition f32 (neg : bool) (m : positive) (e : Z) : TF.float32 :=
  S754_finite neg m e.

End Reference.

(* ===================================================================== *)
(** * Vocabulary of the statements *)
(* ===================================================================== *)

Module MCE := MultiCategoryEncoding.
Module Import TV := TextVectorizationWithTokenizer.

(** A tokenizer converts token by token when it returns one id per
    token it is given. *)
Definition length_preserving (tk : Tokenizer) : Prop :=
  forall tokens : list string,
    List.length (convert_tokens_to_ids tk tokens) = List.length tokens.

(** The tokens of a sentence with the separator appended. *)
Definition with_separator (tk : Tokenizer) (s : string) : list string :=
  tokenize tk s ++ ["[SEP]"].

(** A batch of sentences as the text layer receives it, one sentence
    per row. *)
Definition as_batch (sentences : list string) : list (list string) :=
  map (fun s => [s]) sentences.

(** A tag with ['one-hot'] read as ['none']. *)
Definition one_hot_as_none (tag : string) : string :=
  if String.eqb tag ONE_HOT then NONE else tag.

(** The value the transform leaves for a parsed number: zero for a NaN,
    the number itself otherwise. *)
Definition impute (x : TF.float32) : TF.float32 :=
  if TF.is_nan x then TF.zero else x.

(** The number a string parses to, for a string the parser accepts. *)
Definition parsed (fw : TF.Framework) (s : string) : TF.float32 :=
  match TF.parse_float fw s with
  | Some x => x
  | None => TF.zero
  end.

(** Whether the parser accepts a string, that is, does not raise on it. *)
Definition accepted (fw : TF.Framework) (s : string) : bool :=
  match TF.parse_float fw s with
  | Some _ => true
  | None => false
  end.

(** The tags the constructor recognises. *)
Definition known_tag (tag : string) : bool :=
  String.eqb tag NONE || String.eqb tag INT || String.eqb tag ONE_HOT.

(** The entry of [encoding_layers] the constructor makes for a
    recognised tag. *)
Definition tag_layer (fw : TF.Framework) (tag : string)
  : option (TF.StringLookup fw) :=
  if String.eqb tag INT then Some (TF.StringLookup_new fw) else None.

(** Whether an entry of [encoding_layers] is a lookup layer. *)
Definition is_lookup {fw : TF.Framework} (layer : option (TF.StringLookup fw))
  : bool :=
  match layer with
  | Some _ => true
  | None => false
  end.

(** A list of strings read back from a value. *)
Definition strings_of (v : Dict.pyval) : option (list string) :=
  match v with
  | Dict.PList l =>
      fold_right (fun x acc =>
                    match x, acc with
                    | Dict.PStr s, Some names => Some (s :: names)
                    | _, _ => None
                    end) (Some []) l
  | _ => None
  end.

(** An optional integer, an optional list of strings and an optional
    dictionary of strings read back from a value. *)
Definition int_of (v : Dict.pyval) : option (option Z) :=
  match v with
  | Dict.PNone => Some None
  | Dict.PInt z => Some (Some z)
  | _ => None
  end.

Definition names_of (v : Dict.pyval) : option (option (list string)) :=
  match v with
  | Dict.PNone => Some None
  | Dict.PList _ => option_map Some (strings_of v)
  | _ => None
  end.

Definition types_of (v : Dict.pyval)
  : option (option (list (string * string))) :=
  match v with
  | Dict.PNone => Some None
  | Dict.PDict d =>
      option_map Some
        (fold_right (fun kv acc =>
                       match snd kv, acc with
                       | Dict.PStr s, Some types => Some ((fst kv, s) :: types)
                       | _, _ => None
                       end) (Some []) d)
  | _ => None
  end.

(** The first entry of a row of the text layer's input. *)
Definition first_entry (row : list string) : string :=
  match row with
  | s :: _ => s
  | [] => ""
  end.

(** The element type of the input [build] makes, by class. *)
Definition build_dtype (self : Nodes.Node) : Nodes.dtype :=
  match Nodes.fields self with
  | Nodes.TextInput | Nodes.StructuredDataInput _ _ => Nodes.tf_string
  | _ => Nodes.tf_float32
  end.

Definition is_timeseries (self : Nodes.Node) : bool :=
  match Nodes.fields self with
  | Nodes.TimeseriesInput _ _ _ => true
  | _ => false
  end.

(* ===================================================================== *)
(** * Facts about the Python list operations *)
(* ===================================================================== *)

Lemma len_nonneg {A : Type} (l : list A) : 0 <= Py.len l.
Proof. unfold Py.len. lia. Qed.

Lemma len_app {A : Type} (l l' : list A) :
  Py.len (l ++ l') = Py.len l + Py.len l'.
Proof. unfold Py.len. rewrite length_app. lia. Qed.

Lemma len_repeat {A : Type} (x : A) (n : Z) :
  0 <= n -> Py.len (repeat x (Z.to_nat n)) = n.
Proof. intros Hn. unfold Py.len. rewrite repeat_length. lia. Qed.

Lemma mul_singleton {A : Type} (x : A) (n : Z) :
  Py.mul [x] n = repeat x (Z.to_nat n).
Proof.
  unfold Py.mul.
  induction (Z.to_nat n) as [|k IH]; simpl; [reflexivity | now rewrite IH].
Qed.

Lemma firstn_min_length {A : Type} (k : nat) (l : list A) :
  firstn (Nat.min k (List.length l)) l = firstn k l.
Proof.
  destruct (Nat.le_ge_cases k (List.length l)) as [Hle | Hge].
  - now rewrite Nat.min_l.
  - rewrite Nat.min_r by assumption.
    now rewrite firstn_all, firstn_all2.
Qed.

(** A slice from the start with a bound that is not negative keeps the
    first [stop] elements. *)
Lemma slice_prefix {A : Type} (stop : Z) (l : list A) :
  0 <= stop -> Py.slice 0 stop l = firstn (Z.to_nat stop) l.
Proof.
  intros Hstop. unfold Py.slice, Py.clamp.
  pose proof (len_nonneg l) as Hl.
  replace (0 <? 0) with false by reflexivity.
  destruct (stop <? 0) eqn:Hneg; [apply Z.ltb_lt in Hneg; lia|].
  rewrite Z.min_l by assumption. simpl.
  rewrite <- (firstn_min_length (Z.to_nat stop) l).
  f_equal. unfold Py.len. lia.
Qed.

(** A negative bound counts from the end of the list. *)
Lemma slice_prefix_neg {A : Type} (stop : Z) (l : list A) :
  stop < 0 ->
  Py.slice 0 stop l = firstn (List.length l - Z.to_nat (- stop)) l.
Proof.
  intros Hstop. unfold Py.slice, Py.clamp.
  pose proof (len_nonneg l) as Hl.
  replace (0 <? 0) with false by reflexivity.
  destruct (stop <? 0) eqn:Hneg; [|apply Z.ltb_ge in Hneg; lia].
  rewrite Z.min_l by assumption. simpl.
  f_equal. unfold Py.len. lia.
Qed.

Lemma len_slice_prefix {A : Type} (stop : Z) (l : list A) :
  0 <= stop <= Py.len l -> Py.len (Py.slice 0 stop l) = stop.
Proof.
  intros [H0 Hle]. rewrite slice_prefix by assumption.
  unfold Py.len in *. rewrite length_firstn. lia.
Qed.

Lemma firstn_snoc_all {A : Type} (l : list A) (x : A) :
  firstn (List.length l) (l ++ [x]) = l.
Proof.
  rewrite firstn_app, Nat.sub_diag, firstn_all. simpl. apply app_nil_r.
Qed.

(* ===================================================================== *)
(** * TextVectorizationWithTokenizer.encode_sentence *)
(* ===================================================================== *)

(** The two branches of [encode_sentence], each under its guard. *)
Lemma encode_sentence_pad_branch (self : TV.t) (s : string) :
  Py.len (with_separator (tokenizer self) s) < max_seq_len self - 1 ->
  encode_sentence self s =
    convert_tokens_to_ids (tokenizer self)
      (with_separator (tokenizer self) s ++
       repeat "[UNK]"
         (Z.to_nat (max_seq_len self - 1
                    - Py.len (with_separator (tokenizer self) s)))).
Proof.
  intros Hlt. unfold encode_sentence, with_separator in *.
  apply Z.ltb_lt in Hlt. rewrite Hlt.
  rewrite mul_singleton. do 3 f_equal. lia.
Qed.

Lemma encode_sentence_slice_branch (self : TV.t) (s : string) :
  max_seq_len self - 1 <= Py.len (with_separator (tokenizer self) s) ->
  encode_sentence self s =
    convert_tokens_to_ids (tokenizer self)
      (Py.slice 0 (max_seq_len self - 1) (with_separator (tokenizer self) s)).
Proof.
  intros Hge. unfold encode_sentence, with_separator in *.
  apply Z.ltb_ge in Hge. now rewrite Hge.
Qed.

(** What is handed to [convert_tokens_to_ids] has [max_seq_len - 1]
    tokens in either branch. *)
Lemma encode_sentence_token_count (self : TV.t) (s : string) :
  1 <= max_seq_len self ->
  exists tokens : list string,
    encode_sentence self s = convert_tokens_to_ids (tokenizer self) tokens
    /\ Py.len tokens = max_seq_len self - 1.
Proof.
  intros HL.
  destruct (Z.lt_ge_cases (Py.len (with_separator (tokenizer self) s))
                          (max_seq_len self - 1)) as [Hlt | Hge].
  - eexists. split; [apply encode_sentence_pad_branch; assumption|].
    rewrite len_app, len_repeat; lia.
  - eexists. split; [apply encode_sentence_slice_branch; assumption|].
    apply len_slice_prefix. lia.
Qed.

Lemma encode_sentence_length (self : TV.t) (s : string) :
  1 <= max_seq_len self ->
  length_preserving (tokenizer self) ->
  Py.len (encode_sentence self s) = max_seq_len self - 1.
Proof.
  intros HL Hconv.
  destruct (encode_sentence_token_count self s HL) as (tokens & -> & Hlen).
  unfold Py.len in *. now rewrite Hconv.
Qed.

(* ===================================================================== *)
(** * TextVectorizationWithTokenizer.bert_encode *)
(* ===================================================================== *)


Lemma rectangular_uniform (n : nat) (m : TF.Matrix) :
  Forall (fun r => List.length r = n) m -> TF.rectangular m = true.
Proof.
  intros Hall. unfold TF.rectangular. apply forallb_forall.
  intros r Hr. apply Nat.eqb_eq.
  rewrite Forall_forall in Hall. rewrite (Hall r Hr).
  destruct m as [|r0 m']; [contradiction|].
  simpl. symmetry. apply Hall. now left.
Qed.

Lemma mapM_first_entry {B : Type} (f : string -> B) (sentences : list string) :
  mapM (fun s => s0 <- Py.getitem s 0 ;; Ok (f s0)) (as_batch sentences)
  = Ok (map f sentences).
Proof.
  unfold as_batch.
  induction sentences as [|s ss IH]; [reflexivity|].
  cbn [map mapM]. rewrite IH. reflexivity.
Qed.

Lemma holds_element_nonempty_rows (rows : TF.Matrix) :
  Forall (fun r => r <> []) rows ->
  TF.holds_element rows = negb (Nat.eqb (List.length rows) 0).
Proof.
  intros Hall. destruct rows as [|r rows]; [reflexivity|].
  inversion Hall as [|r' rows' Hr Hrows]; subst.
  destruct r as [|x r]; [contradiction | reflexivity].
Qed.

Lemma concat_last_repeat (c : list Z) (rows : TF.Matrix) :
  c <> [] ->
  Forall (fun r => r <> []) rows ->
  TF.concat_last (repeat c (List.length rows)) rows
  = Ok (map (fun r => c ++ r) rows).
Proof.
  intros Hc Hrows. unfold TF.concat_last.
  rewrite repeat_length, Nat.eqb_refl.
  rewrite (holds_element_nonempty_rows rows Hrows).
  rewrite (holds_element_nonempty_rows (repeat c (List.length rows)))
    by (apply Forall_forall; intros r Hr; apply repeat_spec in Hr;
        now subst r).
  rewrite repeat_length, Bool.eqb_reflx. f_equal.
  induction rows as [|r rows IH]; simpl; [reflexivity|].
  inversion Hrows; subst. now rewrite IH.
Qed.

Lemma same_shape_of_lengths (a b : TF.Matrix) :
  map (@List.length Z) a = map (@List.length Z) b -> TF.same_shape a b = true.
Proof.
  intros Hlen. unfold TF.same_shape.
  assert (Hn : List.length a = List.length b).
  { rewrite <- (length_map (@List.length Z) a), Hlen. apply length_map. }
  rewrite Hn, Nat.eqb_refl. simpl.
  destruct a as [|ra a'], b as [|rb b']; simpl in *; try discriminate;
    [reflexivity|].
  injection Hlen as Hr _. rewrite Hr. apply Nat.eqb_refl.
Qed.

Lemma get_encoded_sentence_batch (self : TV.t) (sentences : list string) :
  1 <= max_seq_len self ->
  length_preserving (tokenizer self) ->
  get_encoded_sentence self (as_batch sentences)
  = Ok (map (encode_sentence self) sentences).
Proof.
  intros HL Hconv. unfold get_encoded_sentence.
  rewrite mapM_first_entry. simpl. unfold TF.constant.
  rewrite (rectangular_uniform (Z.to_nat (max_seq_len self - 1)));
    [reflexivity|].
  apply Forall_forall. intros r Hr. apply in_map_iff in Hr.
  destruct Hr as (s & <- & _).
  pose proof (encode_sentence_length self s HL Hconv) as Hlen.
  unfold Py.len in Hlen. lia.
Qed.

(** The three stacked tensors, for any batch: the ids with those of
    ["[CLS]"] in front of every row, ones and zeros of the same shape. *)
Lemma bert_encode_batch (self : TV.t) (sentences : list string) :
  2 <= max_seq_len self ->
  length_preserving (tokenizer self) ->
  let cls := convert_tokens_to_ids (tokenizer self) ["[CLS]"] in
  let input_word_ids :=
    map (fun s => cls ++ encode_sentence self s) sentences in
  bert_encode self (as_batch sentences)
  = Ok [input_word_ids;
        map (map (fun _ => 1)) input_word_ids;
        map (map (fun _ => 0)) input_word_ids].
Proof.
  intros HL Hconv cls input_word_ids. unfold bert_encode.
  rewrite get_encoded_sentence_batch by (assumption || lia). simpl.
  fold cls. rewrite mul_singleton.
  unfold TF.shape0, Py.len. rewrite Nat2Z.id.
  assert (Hcls : cls <> []).
  { intros Hnil. pose proof (Hconv ["[CLS]"]) as Hone. fold cls in Hone.
    rewrite Hnil in Hone. discriminate. }
  assert (Hrows : Forall (fun r : list Z => r <> [])
                         (map (encode_sentence self) sentences)).
  { apply Forall_forall. intros r Hr. apply in_map_iff in Hr.
    destruct Hr as (s & <- & _).
    pose proof (encode_sentence_length self s ltac:(lia) Hconv) as Hlen.
    intros Hnil. rewrite Hnil in Hlen. unfold Py.len in Hlen.
    simpl in Hlen. lia. }
  rewrite concat_last_repeat by assumption. simpl.
  unfold TF.zeros_like_int at 1. rewrite map_repeat.
  replace (List.length (map (encode_sentence self) sentences))
    with (List.length (TF.zeros_like_int (map (encode_sentence self) sentences)))
    by (unfold TF.zeros_like_int; now rewrite !length_map).
  rewrite concat_last_repeat.
  2: { destruct cls; [contradiction | discriminate]. }
  2: { unfold TF.zeros_like_int. rewrite Forall_forall in *.
       intros r Hr. apply in_map_iff in Hr. destruct Hr as (r0 & <- & Hr0).
       specialize (Hrows r0 Hr0). destruct r0; [contradiction | discriminate]. }
  simpl.
  unfold TF.ones_like, TF.zeros_like_int. rewrite !map_map.
  fold input_word_ids.
  assert (Hty : map (fun r => map (fun _ => 0) cls ++ map (fun _ => 0)
                                (encode_sentence self r)) sentences
                = map (map (fun _ => 0)) input_word_ids).
  { unfold input_word_ids. rewrite map_map. apply map_ext.
    intros s. now rewrite map_app. }
  rewrite Hty.
  rewrite !same_shape_of_lengths.
  - simpl. unfold input_word_ids. now rewrite !map_map.
  - rewrite !map_map. apply map_ext. intros r. now rewrite length_map.
  - unfold input_word_ids. rewrite !map_map. apply map_ext. intros r.
    now rewrite length_map.
Qed.

(* ===================================================================== *)
(** * Statements on the text layer *)
(* ===================================================================== *)

(** C3.  When the tokens of a sentence, with ["[SEP]"] appended, number
    [max_seq_len - 1] or more, [encode_sentence] converts the slice
    [tokens[0 : max_seq_len - 1]] of that list, which for
    [max_seq_len >= 1] is its first [max_seq_len - 1] tokens.  The
    separator is appended before the cut: a sentence of exactly
    [max_seq_len - 1] tokens is encoded as the ids of its own tokens,
    with no separator left. *)
Theorem encode_sentence_truncates_after_separator
    (self : TV.t) (s : string) :
  max_seq_len self - 1 <= Py.len (with_separator (tokenizer self) s) ->
  encode_sentence self s
  = convert_tokens_to_ids (tokenizer self)
      (Py.slice 0 (max_seq_len self - 1) (with_separator (tokenizer self) s))
  /\ (1 <= max_seq_len self ->
      encode_sentence self s
      = convert_tokens_to_ids (tokenizer self)
          (firstn (Z.to_nat (max_seq_len self - 1))
                  (with_separator (tokenizer self) s)))
  /\ (Py.len (tokenize (tokenizer self) s) = max_seq_len self - 1 ->
      encode_sentence self s
      = convert_tokens_to_ids (tokenizer self) (tokenize (tokenizer self) s)).
Proof.
  intros Hge.
  pose proof (encode_sentence_slice_branch self s Hge) as Henc.
  split; [exact Henc|]. split.
  - intros HL. rewrite Henc. now rewrite slice_prefix by lia.
  - intros Hlen. rewrite Henc.
    pose proof (len_nonneg (tokenize (tokenizer self) s)) as Hnn.
    rewrite slice_prefix by lia.
    rewrite <- Hlen. unfold Py.len. rewrite Nat2Z.id.
    unfold with_separator. now rewrite firstn_snoc_all.
Qed.

Lemma encode_sentence_truncates_after_separator_witness :
  3 - 1 <= Py.len (with_separator Reference.tokenizer "hi there")
  /\ encode_sentence (TV.__init__ Reference.tokenizer 3) "hi there"
     = [7632; 2045].
Proof.
  assert (H : 3 - 1 <= Py.len (with_separator Reference.tokenizer "hi there"))
    by (vm_compute; discriminate).
  split; [exact H|].
  apply (encode_sentence_truncates_after_separator
           (TV.__init__ Reference.tokenizer 3) "hi there" H).
  reflexivity.
Defined.

(** C6.  When the tokens of a sentence, with ["[SEP]"] appended, number
    fewer than [max_seq_len - 1], [encode_sentence] pads them on the
    right with ["[UNK]"] up to exactly [max_seq_len - 1] tokens and
    converts the padded list.  With [max_seq_len = 5] and the tokens
    ["hi"], ["there"], what is converted is
    ["hi"; "there"; "[SEP]"; "[UNK]"]; with the id of ["[CLS]"] in
    front, the row of the batch encoding has [max_seq_len] ids. *)
Theorem encode_sentence_pads_with_unk (self : TV.t) (s : string) :
  Py.len (with_separator (tokenizer self) s) < max_seq_len self - 1 ->
  let padded :=
    with_separator (tokenizer self) s ++
    repeat "[UNK]"
      (Z.to_nat (max_seq_len self - 1
                 - Py.len (with_separator (tokenizer self) s))) in
  encode_sentence self s = convert_tokens_to_ids (tokenizer self) padded
  /\ Py.len padded = max_seq_len self - 1
  /\ (max_seq_len self = 5 ->
      tokenize (tokenizer self) s = ["hi"; "there"] ->
      encode_sentence self s
      = convert_tokens_to_ids (tokenizer self)
          ["hi"; "there"; "[SEP]"; "[UNK]"])
  /\ (length_preserving (tokenizer self) ->
      exists cls_id : Z,
        convert_tokens_to_ids (tokenizer self) ["[CLS]"] = [cls_id]
        /\ (exists mask types : TF.Matrix,
              bert_encode self (as_batch [s])
              = Ok [[cls_id :: encode_sentence self s]; mask; types])
        /\ Py.len (cls_id :: encode_sentence self s) = max_seq_len self).
Proof.
  intros Hlt padded.
  pose proof (encode_sentence_pad_branch self s Hlt) as Henc.
  pose proof (len_nonneg (with_separator (tokenizer self) s)) as Hnn.
  split; [exact Henc|]. split; [|split].
  - unfold padded. rewrite len_app, len_repeat; lia.
  - intros H5 Htok. rewrite Henc. unfold with_separator in *.
    rewrite Htok, H5. reflexivity.
  - intros Hconv.
    destruct (convert_tokens_to_ids (tokenizer self) ["[CLS]"])
      as [|cls_id [|x rest]] eqn:Hcls;
      try (pose proof (Hconv ["[CLS]"]) as Hone; rewrite Hcls in Hone;
           simpl in Hone; lia).
    exists cls_id. split; [reflexivity|]. split.
    + do 2 eexists.
      rewrite (bert_encode_batch self [s]) by (assumption || lia).
      rewrite Hcls. reflexivity.
    + pose proof (encode_sentence_length self s ltac:(lia) Hconv) as Hlen.
      unfold Py.len in *. simpl List.length. lia.
Qed.

Lemma encode_sentence_pads_with_unk_witness :
  Py.len (with_separator Reference.tokenizer "hi there") < 5 - 1
  /\ encode_sentence (TV.__init__ Reference.tokenizer 5) "hi there"
     = [7632; 2045; 102; 100].
Proof.
  assert (H : Py.len (with_separator Reference.tokenizer "hi there") < 5 - 1)
    by reflexivity.
  split; [exact H|].
  apply (encode_sentence_pads_with_unk
           (TV.__init__ Reference.tokenizer 5) "hi there" H);
    reflexivity.
Defined.

(** C10.  For every sentence, the empty one included, and every
    [max_seq_len >= 1], [encode_sentence] converts exactly
    [max_seq_len - 1] tokens, in the padding branch and in the
    truncation branch alike, and so returns exactly [max_seq_len - 1]
    ids when the tokenizer returns one id per token. *)
Theorem encode_sentence_returns_fixed_length (self : TV.t) (s : string) :
  1 <= max_seq_len self ->
  (exists tokens : list string,
     encode_sentence self s = convert_tokens_to_ids (tokenizer self) tokens
     /\ Py.len tokens = max_seq_len self - 1)
  /\ (length_preserving (tokenizer self) ->
      Py.len (encode_sentence self s) = max_seq_len self - 1).
Proof.
  intros HL. split.
  - now apply encode_sentence_token_count.
  - intros Hconv. now apply encode_sentence_length.
Qed.

Lemma reference_tokenizer_length_preserving :
  length_preserving Reference.tokenizer.
Proof. intros tokens. apply length_map. Qed.

Lemma encode_sentence_returns_fixed_length_witness :
  1 <= 4
  /\ Py.len (encode_sentence (TV.__init__ Reference.tokenizer 4) "") = 4 - 1.
Proof.
  assert (H : 1 <= 4) by lia.
  split; [exact H|].
  apply (encode_sentence_returns_fixed_length
           (TV.__init__ Reference.tokenizer 4) "" H).
  exact reference_tokenizer_length_preserving.
Defined.



(* ===================================================================== *)
(** * Statements on the input nodes *)
(* ===================================================================== *)

Lemma getitem_0_singleton {A : Type} (x : A) : Py.getitem [x] 0 = Ok x.
Proof. reflexivity. Qed.

Lemma keras_Input_accepts (sh : Nodes.Shape) (dt : Nodes.dtype) :
  forallb Nodes.dim_ok sh = true ->
  Nodes.keras_Input (Some sh) dt
  = Ok {| Nodes.input_shape := sh; Nodes.input_dtype := dt |}.
Proof. intros Hok. unfold Nodes.keras_Input. now rewrite Hok. Qed.

Lemma keras_Input_refuses (sh : Nodes.Shape) (dt : Nodes.dtype) :
  forallb Nodes.dim_ok sh = false ->
  Nodes.keras_Input (Some sh) dt = Raise ValueError_dimension.
Proof. intros Hok. unfold Nodes.keras_Input. now rewrite Hok. Qed.

(** [TimeseriesInput.build] on a shape of one dimension, whatever the
    value of [lookback]: the shape is assigned, then handed to
    [tf.keras.Input]. *)
Lemma timeseries_build_one_dimension
    (lookback : option Z) (d : Nodes.Dim)
    (names : option (list string)) (types : option (list (string * string))) :
  Nodes.build {| Nodes.shape := Some [d];
                 Nodes.fields := Nodes.TimeseriesInput lookback names types |}
  = (Nodes.keras_Input (Some [lookback; d]) Nodes.tf_float32,
     {| Nodes.shape := Some [lookback; d];
        Nodes.fields := Nodes.TimeseriesInput lookback names types |}).
Proof. reflexivity. Qed.

(** [build], by the class and the shape of the node. *)
Lemma build_cases (self : Nodes.Node) :
  Nodes.build self
  = match Nodes.fields self, Nodes.shape self with
    | Nodes.TimeseriesInput _ _ _, None => (Raise TypeError_len, self)
    | Nodes.TimeseriesInput lookback _ _, Some [d] =>
        (Nodes.keras_Input (Some [lookback; d]) Nodes.tf_float32,
         Nodes.set_shape self [lookback; d])
    | _, _ => (Nodes.keras_Input (Nodes.shape self) (build_dtype self), self)
    end.
Proof.
  destruct self as [shape0 fields0].
  destruct fields0 as [| c | | n t | l n t]; try reflexivity.
  destruct shape0 as [sh|]; [|reflexivity].
  unfold Nodes.build, Nodes.len_shape, Nodes.shape_0. simpl.
  destruct sh as [|d [|d' sh']]; try reflexivity.
  destruct (Py.len (d :: d' :: sh') =? 1) eqn:Hlen; [|reflexivity].
  apply Z.eqb_eq in Hlen. unfold Py.len in Hlen. simpl in Hlen. lia.
Qed.

(** What [build] leaves in the node, whether it returns or raises, and
    what a second call does. *)
Lemma build_frame (self : Nodes.Node) :
  Nodes.fields (snd (Nodes.build self)) = Nodes.fields self
  /\ (Nodes.shape (snd (Nodes.build self)) = Nodes.shape self
      \/ exists lookback names types d,
           Nodes.fields self = Nodes.TimeseriesInput lookback names types
           /\ Nodes.shape self = Some [d]
           /\ Nodes.shape (snd (Nodes.build self)) = Some [lookback; d])
  /\ Nodes.build (snd (Nodes.build self)) = Nodes.build self.
Proof.
  rewrite (build_cases self).
  destruct self as [shape0 fields0].
  destruct fields0 as [| c | | n t | l n t];
    try (simpl; split; [reflexivity|]; split;
         [now left | now rewrite build_cases]).
  destruct shape0 as [[|d [|d' sh']]|]; simpl;
    (split; [reflexivity|]; split; [|now rewrite build_cases]);
    try (now left).
  right. now exists l, n, t, d.
Qed.

(** The outcome of [build] is that of [tf.keras.Input] on the shape left
    in the node, but for [len(None)] in [TimeseriesInput]. *)
Lemma build_outcome (self : Nodes.Node) :
  (exists dt : Nodes.dtype,
     fst (Nodes.build self)
     = Nodes.keras_Input (Nodes.shape (snd (Nodes.build self))) dt)
  \/ (Nodes.shape (snd (Nodes.build self)) = None
      /\ Nodes.shape self = None
      /\ fst (Nodes.build self) = Raise TypeError_len).
Proof.
  rewrite (build_cases self).
  destruct self as [shape0 fields0].
  destruct fields0 as [| c | | n t | l n t];
    try (left; eexists; reflexivity).
  destruct shape0 as [[|d [|d' sh']]|];
    try (left; eexists; reflexivity).
  right. repeat split; reflexivity.
Qed.

Lemma keras_Input_returns_iff (sh : option Nodes.Shape) (dt : Nodes.dtype) :
  (exists i, Nodes.keras_Input sh dt = Ok i)
  <-> exists sh', sh = Some sh' /\ forallb Nodes.dim_ok sh' = true.
Proof.
  destruct sh as [sh|]; simpl.
  - destruct (forallb Nodes.dim_ok sh) eqn:Hok.
    + split; intros _; eauto.
    + split; [intros (i & Hi); discriminate|].
      intros (sh' & Heq & Hok'). injection Heq as <-. congruence.
  - split; [intros (i & Hi); discriminate|].
    intros (sh' & Heq & _). discriminate.
Qed.

(** [build] returns exactly when the shape it leaves in the node is
    resolved and has no negative dimension. *)
Lemma build_returns_iff (self : Nodes.Node) :
  (exists i : Nodes.KerasInput, fst (Nodes.build self) = Ok i)
  <-> exists sh : Nodes.Shape,
        Nodes.shape (snd (Nodes.build self)) = Some sh
        /\ forallb Nodes.dim_ok sh = true.
Proof.
  destruct (build_outcome self) as [(dt & ->) | (Hnone & _ & ->)].
  - apply keras_Input_returns_iff.
  - rewrite Hnone. split; [intros (i & Hi); discriminate|].
    intros (sh' & Heq & _). discriminate.
Qed.

(** C7, as the code has it.  On a [TimeseriesInput] with a resolved
    [lookback] and a configured shape of one dimension, the feature
    count, [build] assigns the shape [(lookback, feature_count)] to the
    node and hands it to [tf.keras.Input].  When the lookback is not
    negative and the feature count is unknown or not negative, the
    symbolic input of that shape is made: [lookback = 10] and shape
    [(7,)] give an input of shape [(10, 7)].  When one of the two is
    negative, [tf.keras.Input] raises and no input is made. *)
Theorem timeseries_build_expands_shape
    (lookback : Z) (feature_count : Nodes.Dim)
    (names : option (list string)) (types : option (list (string * string))) :
  let node := {| Nodes.shape := Some [feature_count];
                 Nodes.fields :=
                   Nodes.TimeseriesInput (Some lookback) names types |} in
  let node' := {| Nodes.shape := Some [Some lookback; feature_count];
                  Nodes.fields :=
                    Nodes.TimeseriesInput (Some lookback) names types |} in
  snd (Nodes.build node) = node'
  /\ (0 <= lookback -> Nodes.dim_ok feature_count = true ->
      Nodes.build node
      = (Ok {| Nodes.input_shape := [Some lookback; feature_count];
               Nodes.input_dtype := Nodes.tf_float32 |}, node'))
  /\ (lookback < 0 \/ Nodes.dim_ok feature_count = false ->
      Nodes.build node = (Raise ValueError_dimension, node'))
  /\ Nodes.build
       {| Nodes.shape := Some [Some 7];
          Nodes.fields := Nodes.TimeseriesInput (Some 10) names types |}
     = (Ok {| Nodes.input_shape := [Some 10; Some 7];
              Nodes.input_dtype := Nodes.tf_float32 |},
        {| Nodes.shape := Some [Some 10; Some 7];
           Nodes.fields := Nodes.TimeseriesInput (Some 10) names types |}).
Proof.
  intros node node'. unfold node, node'.
  rewrite timeseries_build_one_dimension.
  split; [reflexivity|]. split; [|split; [|reflexivity]].
  - intros Hl Hd. rewrite keras_Input_accepts; [reflexivity|].
    simpl. rewrite Hd. apply Z.leb_le in Hl. now rewrite Hl.
  - intros Hneg. rewrite keras_Input_refuses; [reflexivity|].
    simpl. destruct Hneg as [Hl | Hd].
    + apply Z.leb_gt in Hl. now rewrite Hl.
    + rewrite Hd. now destruct (0 <=? lookback).
Qed.

Lemma timeseries_build_expands_shape_witness :
  0 <= 10 /\ Nodes.dim_ok (Some 7) = true
  /\ Nodes.build
       {| Nodes.shape := Some [Some 7];
          Nodes.fields := Nodes.TimeseriesInput (Some 10) None None |}
     = (Ok {| Nodes.input_shape := [Some 10; Some 7];
              Nodes.input_dtype := Nodes.tf_float32 |},
        {| Nodes.shape := Some [Some 10; Some 7];
           Nodes.fields := Nodes.TimeseriesInput (Some 10) None None |}).
Proof.
  assert (H1 : 0 <= 10) by lia.
  assert (H2 : Nodes.dim_ok (Some 7) = true) by reflexivity.
  split; [exact H1|]. split; [exact H2|].
  exact (proj1 (proj2 (timeseries_build_expands_shape 10 (Some 7) None None))
           H1 H2).
Defined.

(** C7 fails: with [lookback = -1] and shape [(7,)], [build] assigns
    the shape [(-1, 7)] and [tf.keras.Input] raises on the negative
    dimension; no input of shape [(-1, 7)] is made. *)
Lemma timeseries_build_negative_lookback_counterexample :
  let node := {| Nodes.shape := Some [Some 7];
                 Nodes.fields :=
                   Nodes.TimeseriesInput (Some (-1)) None None |} in
  fst (Nodes.build node) = Raise ValueError_dimension
  /\ (forall i : Nodes.KerasInput, fst (Nodes.build node) <> Ok i)
  /\ Nodes.shape (snd (Nodes.build node)) = Some [Some (-1); Some 7].
Proof.
  split; [reflexivity|]. split; [discriminate | reflexivity].
Qed.

(** C4, as the code has it.  [build] does not look at [lookback]: on a
    [TimeseriesInput] whose [lookback] is [None] and whose shape has one
    dimension [d], it sets the shape to [(None, d)] and hands it to
    [tf.keras.Input], which makes the input with that shape when [d] is
    unknown or not negative; nothing is raised then.  The only error
    is that of [tf.keras.Input] on a negative [d]. *)
Theorem timeseries_build_keeps_unresolved_lookback
    (d : Nodes.Dim)
    (names : option (list string)) (types : option (list (string * string))) :
  let node := {| Nodes.shape := Some [d];
                 Nodes.fields := Nodes.TimeseriesInput None names types |} in
  let node' := {| Nodes.shape := Some [None; d];
                  Nodes.fields := Nodes.TimeseriesInput None names types |} in
  snd (Nodes.build node) = node'
  /\ (Nodes.dim_ok d = true ->
      Nodes.build node
      = (Ok {| Nodes.input_shape := [None; d];
               Nodes.input_dtype := Nodes.tf_float32 |}, node'))
  /\ (Nodes.dim_ok d = false ->
      Nodes.build node = (Raise ValueError_dimension, node')).
Proof.
  intros node node'. unfold node, node'.
  rewrite timeseries_build_one_dimension.
  split; [reflexivity|]. split.
  - intros Hd. rewrite keras_Input_accepts; [reflexivity|].
    simpl. now rewrite Hd.
  - intros Hd. rewrite keras_Input_refuses; [reflexivity|].
    simpl. now rewrite Hd.
Qed.

Lemma timeseries_build_keeps_unresolved_lookback_witness :
  Nodes.dim_ok (Some 7) = true
  /\ Nodes.build
       {| Nodes.shape := Some [Some 7];
          Nodes.fields := Nodes.TimeseriesInput None None None |}
     = (Ok {| Nodes.input_shape := [None; Some 7];
              Nodes.input_dtype := Nodes.tf_float32 |},
        {| Nodes.shape := Some [None; Some 7];
           Nodes.fields := Nodes.TimeseriesInput None None None |}).
Proof.
  assert (H : Nodes.dim_ok (Some 7) = true) by reflexivity.
  split; [exact H|].
  exact (proj1 (proj2 (timeseries_build_keeps_unresolved_lookback
                         (Some 7) None None)) H).
Defined.

(** C4 fails: with [lookback = None] and shape [(7,)], [build] returns
    an input of shape [(None, 7)] instead of raising. *)
Lemma timeseries_build_unresolved_lookback_counterexample :
  let node := {| Nodes.shape := Some [Some 7];
                 Nodes.fields := Nodes.TimeseriesInput None None None |} in
  succeeds (fst (Nodes.build node)) = true
  /\ (forall e : exn, fst (Nodes.build node) <> Raise e)
  /\ fst (Nodes.build node)
     = Ok {| Nodes.input_shape := [None; Some 7];
             Nodes.input_dtype := Nodes.tf_float32 |}.
Proof.
  split; [reflexivity|]. split; [discriminate | reflexivity].
Qed.

(** C5, as the code has it.  [build] leaves the fields of the class
    ([has_channel_dim], [column_names], [column_types], [lookback]) as
    they were, whether it returns or raises.  It leaves [shape] as it
    was too, except on a [TimeseriesInput] whose shape has exactly one
    dimension [d], where [build] itself replaces the shape by
    [(lookback, d)] before it calls [tf.keras.Input], and the node
    keeps that shape even when the call raises.  [build] returns
    exactly when the shape it leaves in the node is resolved and has no
    negative dimension.  Building again changes nothing more and has
    the same outcome. *)
Theorem build_rewrites_only_one_dimensional_timeseries_shape
    (self : Nodes.Node) :
  Nodes.fields (snd (Nodes.build self)) = Nodes.fields self
  /\ (Nodes.shape (snd (Nodes.build self)) = Nodes.shape self
      \/ exists lookback names types d,
           Nodes.fields self = Nodes.TimeseriesInput lookback names types
           /\ Nodes.shape self = Some [d]
           /\ Nodes.shape (snd (Nodes.build self)) = Some [lookback; d])
  /\ ((exists i : Nodes.KerasInput, fst (Nodes.build self) = Ok i)
      <-> exists sh : Nodes.Shape,
            Nodes.shape (snd (Nodes.build self)) = Some sh
            /\ forallb Nodes.dim_ok sh = true)
  /\ Nodes.build (snd (Nodes.build self)) = Nodes.build self.
Proof.
  destruct (build_frame self) as (Hfields & Hshape & Hagain).
  split; [exact Hfields|]. split; [exact Hshape|].
  split; [apply build_returns_iff | exact Hagain].
Qed.

Lemma build_rewrites_only_one_dimensional_timeseries_shape_witness :
  let node := {| Nodes.shape := Some [Some 7];
                 Nodes.fields := Nodes.TimeseriesInput (Some 10) None None |} in
  Nodes.fields (snd (Nodes.build node)) = Nodes.fields node
  /\ exists i : Nodes.KerasInput, fst (Nodes.build node) = Ok i.
Proof.
  intros node.
  destruct (build_rewrites_only_one_dimensional_timeseries_shape node)
    as (Hfields & _ & Hreturns & _).
  split; [exact Hfields|].
  apply Hreturns. eexists. split; reflexivity.
Defined.

(** C5 fails: [build] on a [TimeseriesInput] with [lookback = 10] and
    shape [(7,)] leaves the node with shape [(10, 7)]. *)
Lemma build_mutates_shape_counterexample :
  let node := {| Nodes.shape := Some [Some 7];
                 Nodes.fields := Nodes.TimeseriesInput (Some 10) None None |} in
  (exists i : Nodes.KerasInput, fst (Nodes.build node) = Ok i)
  /\ Nodes.shape (snd (Nodes.build node)) = Some [Some 10; Some 7]
  /\ Nodes.shape (snd (Nodes.build node)) <> Nodes.shape node.
Proof.
  split; [eexists; reflexivity|]. split; [reflexivity | discriminate].
Qed.

(* ===================================================================== *)
(** * Facts about MultiCategoryEncoding *)
(* ===================================================================== *)

Lemma mapM_raises {A B : Type} (f : A -> result B) (l : list A) (e : exn) :
  mapM f l = Raise e -> exists a : A, In a l /\ f a = Raise e.
Proof.
  induction l as [|a l IH]; simpl; [discriminate|].
  destruct (f a) as [b | e'] eqn:Hfa; simpl.
  - destruct (mapM f l) as [bs | e''] eqn:Hl; simpl; [discriminate|].
    intros H. injection H as ->.
    destruct (IH eq_refl) as (a' & Hin & Ha'). exists a'. auto.
  - intros H. injection H as ->. exists a. auto.
Qed.

Lemma mapM_total {A B : Type} (f : A -> result B) (g : A -> B) (l : list A) :
  (forall a, In a l -> f a = Ok (g a)) -> mapM f l = Ok (map g l).
Proof.
  induction l as [|a l IH]; intros Hall; simpl; [reflexivity|].
  rewrite (Hall a) by now left. simpl.
  rewrite IH by (intros a' Hin; apply Hall; now right). reflexivity.
Qed.

(** [tf.where] with the NaN test of the column itself as condition is
    the imputation, element by element. *)
Lemma where_is_nan (number : list TF.float32) :
  TF.where_ (map TF.is_nan number) (TF.zeros_like number) number
  = map impute number.
Proof.
  unfold TF.where_, TF.zeros_like.
  induction number as [|x number IH]; simpl; [reflexivity|].
  now rewrite IH.
Qed.

(** [tf.strings.to_number] on a column: all parsed, or the first
    rejected string raised. *)
Lemma to_number_accepted (fw : TF.Framework) (column : TF.Column string) :
  (forall s, In s column -> accepted fw s = true) ->
  TF.to_number fw column = Ok (map (parsed fw) column).
Proof.
  intros Hall. unfold TF.to_number. apply mapM_total.
  intros s Hin. specialize (Hall s Hin). unfold accepted, parsed in *.
  now destruct (TF.parse_float fw s).
Qed.

Lemma to_number_rejected (fw : TF.Framework) (column : TF.Column string)
    (s : string) :
  In s column -> accepted fw s = false ->
  exists s' : string,
    In s' column /\ accepted fw s' = false
    /\ TF.to_number fw column = Raise (InvalidArgumentError_to_number s').
Proof.
  unfold TF.to_number, accepted.
  induction column as [|c column IH]; simpl; [contradiction|].
  intros Hin Hrej.
  destruct (TF.parse_float fw c) as [x|] eqn:Hc; simpl.
  - destruct Hin as [-> | Hin]; [rewrite Hc in Hrej; discriminate|].
    destruct (IH Hin Hrej) as (s' & Hin' & Hrej' & Hrun).
    exists s'. rewrite Hrun. simpl. auto.
  - exists c. rewrite Hc. auto.
Qed.

(** The loop body on a column without lookup layer. *)
Lemma call_column_none (fw : TF.Framework) (column : TF.Column string) :
  MCE.call_column (fw := fw) column None
  = (number <- TF.to_number fw column ;; Ok (map impute number)).
Proof.
  unfold MCE.call_column.
  destruct (TF.to_number fw column) as [number | e]; simpl;
    [now rewrite where_is_nan | reflexivity].
Qed.

(** The loop body on a column with a lookup layer. *)
Lemma call_column_lookup (fw : TF.Framework) (column : TF.Column string)
    (layer : TF.StringLookup fw) :
  MCE.call_column column (Some layer)
  = match TF.StringLookup_call fw layer with
    | Some index => Ok (map (fun s => TF.cast_float32 (index s)) column)
    | None => Raise FailedPreconditionError_lookup
    end.
Proof. reflexivity. Qed.

(** The loop body raises the error of the parser on a column without
    lookup layer, and the error of the lookup on a column with one. *)
Lemma call_column_raises (fw : TF.Framework) (column : TF.Column string)
    (layer : option (TF.StringLookup fw)) (e : exn) :
  MCE.call_column column layer = Raise e ->
  (layer = None
   /\ exists s : string,
        In s column /\ accepted fw s = false
        /\ e = InvalidArgumentError_to_number s)
  \/ (e = FailedPreconditionError_lookup
      /\ exists l : TF.StringLookup fw,
           layer = Some l /\ TF.StringLookup_call fw l = None).
Proof.
  destruct layer as [layer|].
  - rewrite call_column_lookup.
    destruct (TF.StringLookup_call fw layer) eqn:Hcall; [discriminate|].
    intros H. injection H as <-. right. split; [reflexivity|].
    now exists layer.
  - rewrite call_column_none.
    destruct (TF.to_number fw column) as [number | e'] eqn:Hnum; simpl;
      [discriminate|].
    intros H. injection H as ->. left. split; [reflexivity|].
    unfold TF.to_number in Hnum. apply mapM_raises in Hnum.
    destruct Hnum as (s & Hin & Hs). exists s. unfold accepted.
    destruct (TF.parse_float fw s); [discriminate|].
    injection Hs as <-. auto.
Qed.

(** The constructor gives ['one-hot'] what it gives ['none']. *)
Lemma init_loop_one_hot_as_none (fw : TF.Framework) (tags : list string) :
  forall layers,
    MCE.init_loop fw (map one_hot_as_none tags) layers
    = MCE.init_loop fw tags layers.
Proof.
  induction tags as [|tag tags IH]; intros layers; simpl; [reflexivity|].
  rewrite IH. f_equal. unfold one_hot_as_none.
  destruct (String.eqb tag ONE_HOT) eqn:Hoh.
  - apply String.eqb_eq in Hoh. subst tag. reflexivity.
  - now rewrite Hoh.
Qed.

Lemma len_map {A B : Type} (f : A -> B) (l : list A) :
  Py.len (map f l) = Py.len l.
Proof. unfold Py.len. now rewrite length_map. Qed.

(** The split of [call] passes exactly when there is a tag and the
    counts agree. *)
Lemma split_ones_len {A : Type} (value : TF.Table A) {B : Type} (l : list B) :
  TF.split_ones value (Py.len l)
  = match l with
    | [] => Raise InvalidArgumentError_split
    | _ :: _ =>
        if Py.len value =? Py.len l then Ok value
        else Raise InvalidArgumentError_split
    end.
Proof.
  unfold TF.split_ones. destruct l as [|b l]; [reflexivity|].
  replace (Py.len (b :: l) <=? 0) with false; [reflexivity|].
  symmetry. apply Z.leb_gt. unfold Py.len. simpl List.length. lia.
Qed.

(** On recognised tags the constructor makes one entry per tag. *)
Lemma init_loop_known (fw : TF.Framework) (tags : list string) :
  forallb known_tag tags = true ->
  forall layers,
    MCE.init_loop fw tags layers = layers ++ map (tag_layer fw) tags.
Proof.
  induction tags as [|tag tags IH]; intros Hknown layers; simpl.
  - now rewrite app_nil_r.
  - simpl in Hknown. apply andb_true_iff in Hknown.
    destruct Hknown as (Htag & Hrest).
    rewrite (IH Hrest). unfold tag_layer at 2. unfold known_tag in Htag.
    destruct (String.eqb tag NONE) eqn:Hnone.
    + apply String.eqb_eq in Hnone. subst tag. simpl.
      now rewrite <- app_assoc.
    + destruct (String.eqb tag INT) eqn:Hint.
      * now rewrite <- app_assoc.
      * simpl in Htag. rewrite Htag. now rewrite <- app_assoc.
Qed.

Lemma init_layers_known (fw : TF.Framework) (encoding : list string) :
  forallb known_tag encoding = true ->
  MCE.encoding_layers (MCE.__init__ fw encoding)
  = map (tag_layer fw) encoding.
Proof. intros Hknown. simpl. now rewrite init_loop_known. Qed.

Lemma mapM_nth_error {A B : Type} (f : A -> result B) (l : list A)
    (out : list B) :
  mapM f l = Ok out ->
  forall (i : nat) (a : A),
    nth_error l i = Some a ->
    exists b : B, f a = Ok b /\ nth_error out i = Some b.
Proof.
  revert out. induction l as [|x l IH]; intros out Hrun i a Hi.
  - destruct i; discriminate.
  - simpl in Hrun.
    destruct (f x) as [b|] eqn:Hx; simpl in Hrun; [|discriminate].
    destruct (mapM f l) as [bs|] eqn:Hl; simpl in Hrun; [|discriminate].
    injection Hrun as <-.
    destruct i as [|i]; simpl in *.
    + injection Hi as <-. now exists b.
    + now apply (IH bs eq_refl i a).
Qed.

Lemma nth_error_combine {A B : Type} (l : list A) (l' : list B)
    (i : nat) (a : A) (b : B) :
  nth_error l i = Some a -> nth_error l' i = Some b ->
  nth_error (combine l l') i = Some (a, b).
Proof.
  revert l' i. induction l as [|x l IH]; intros l' i Ha Hb.
  - destruct i; discriminate.
  - destruct l' as [|y l']; [destruct i; discriminate|].
    destruct i as [|i]; simpl in *.
    + now injection Ha as ->; injection Hb as ->.
    + now apply IH.
Qed.

(** When the parser returns for a column, it accepted every string. *)
Lemma to_number_returns (fw : TF.Framework) (column : TF.Column string)
    (number : TF.Column TF.float32) :
  TF.to_number fw column = Ok number ->
  (forall s, In s column -> accepted fw s = true)
  /\ number = map (parsed fw) column.
Proof.
  intros Hrun.
  destruct (forallb (accepted fw) column) eqn:Hall.
  - rewrite forallb_forall in Hall. split; [exact Hall|].
    rewrite to_number_accepted in Hrun by assumption. now injection Hrun.
  - apply (f_equal negb) in Hall. simpl in Hall.
    assert (Hex : exists s, In s column /\ accepted fw s = false).
    { clear Hrun. induction column as [|c column IH]; [discriminate|].
      simpl in Hall. destruct (accepted fw c) eqn:Hc.
      - destruct (IH Hall) as (s & Hin & Hs). exists s. simpl. auto.
      - exists c. simpl. auto. }
    destruct Hex as (s & Hin & Hs).
    destruct (to_number_rejected fw column s Hin Hs) as (s' & _ & _ & Hr).
    rewrite Hr in Hrun. discriminate.
Qed.

(** What the end of [call] returns for the list its loop made. *)
Lemma call_finish {A : Type} (output_nodes : list (TF.Column A)) :
  (if Py.len output_nodes =? 1
   then (node <- Py.getitem output_nodes 0 ;; Ok [node])
   else TF.Concatenate output_nodes)
  = match output_nodes with
    | [] => Raise ValueError_Concatenate
    | _ => Ok output_nodes
    end.
Proof.
  destruct output_nodes as [|node [|node' rest]]; try reflexivity.
  destruct (Py.len (node :: node' :: rest) =? 1) eqn:Hone; [|reflexivity].
  apply Z.eqb_eq in Hone. unfold Py.len in Hone. simpl in Hone. lia.
Qed.

(** [call], step by step. *)
Lemma call_unfold (fw : TF.Framework) (self : MCE.t fw)
    (inputs : TF.Table string) :
  MCE.call self inputs
  = match MCE.encoding self with
    | [] => Raise InvalidArgumentError_split
    | _ :: _ =>
        if Py.len inputs =? Py.len (MCE.encoding self)
        then match mapM (fun p : TF.Column string
                                 * option (TF.StringLookup fw)
                           => MCE.call_column (fst p) (snd p))
                        (combine inputs (MCE.encoding_layers self)) with
             | Ok [] => Raise ValueError_Concatenate
             | Ok output => Ok output
             | Raise e => Raise e
             end
        else Raise InvalidArgumentError_split
    end.
Proof.
  unfold MCE.call. rewrite split_ones_len.
  destruct (MCE.encoding self) as [|tag tags]; [reflexivity|].
  destruct (Py.len inputs =? Py.len (tag :: tags)); [|reflexivity].
  simpl bind at 1. unfold Py.zip.
  destruct (mapM _ _) as [output_nodes | e]; [|reflexivity].
  simpl bind. rewrite call_finish. now destruct output_nodes.
Qed.

(** What [call] returns is the list of what its loop made, column by
    column. *)
Lemma call_returns (fw : TF.Framework) (self : MCE.t fw)
    (inputs : TF.Table string) (output : TF.Table TF.float32) :
  MCE.call self inputs = Ok output ->
  mapM (fun p : TF.Column string * option (TF.StringLookup fw) =>
          MCE.call_column (fst p) (snd p))
       (Py.zip inputs (MCE.encoding_layers self))
  = Ok output.
Proof.
  rewrite call_unfold. unfold Py.zip.
  destruct (MCE.encoding self) as [|tag tags]; [discriminate|].
  destruct (Py.len inputs =? Py.len (tag :: tags)); [|discriminate].
  destruct (mapM _ _) as [[|node output_nodes] | e]; try discriminate.
  intros H. now injection H as <-.
Qed.

(** A column tagged ['none'], in any position of any input. *)
Lemma call_none_column_returns (fw : TF.Framework) (encoding : list string)
    (inputs : TF.Table string) (i : nat) (column : TF.Column string)
    (output : TF.Table TF.float32) :
  forallb known_tag encoding = true ->
  nth_error encoding i = Some NONE ->
  nth_error inputs i = Some column ->
  MCE.call (MCE.__init__ fw encoding) inputs = Ok output ->
  (forall s, In s column -> accepted fw s = true)
  /\ nth_error output i = Some (map (fun s => impute (parsed fw s)) column).
Proof.
  intros Hknown Htag Hcol Hrun.
  apply call_returns in Hrun. rewrite init_layers_known in Hrun by assumption.
  assert (Hlayer : nth_error (map (tag_layer fw) encoding) i
                   = Some (tag_layer fw NONE)).
  { now rewrite nth_error_map, Htag. }
  pose proof (nth_error_combine _ _ i _ _ Hcol Hlayer) as Hpair.
  destruct (mapM_nth_error _ _ _ Hrun i _ Hpair) as (node & Hnode & Hout).
  cbn [fst snd] in Hnode.
  change (tag_layer fw NONE) with (@None (TF.StringLookup fw)) in Hnode.
  rewrite call_column_none in Hnode.
  destruct (TF.to_number fw column) as [number|] eqn:Hnum; simpl in Hnode;
    [|discriminate].
  injection Hnode as <-.
  destruct (to_number_returns fw column number Hnum) as (Hall & ->).
  split; [exact Hall|]. now rewrite Hout, map_map.
Qed.

(** [call] on a layer with a single tag and a single column. *)
Lemma call_single_column (fw : TF.Framework) (tag : string)
    (layer : option (TF.StringLookup fw)) (column : TF.Column string) :
  MCE.encoding_layers (MCE.__init__ fw [tag]) = [layer] ->
  MCE.call (MCE.__init__ fw [tag]) [column]
  = (node <- MCE.call_column column layer ;; Ok [node]).
Proof.
  intros Hlayers. rewrite call_unfold, Hlayers. simpl.
  destruct (MCE.call_column column layer); reflexivity.
Qed.

(* ===================================================================== *)
(** * More on encode_sentence *)
(* ===================================================================== *)

Lemma firstn_app_left {A : Type} (k : nat) (l l' : list A) :
  (k <= List.length l)%nat -> firstn k (l ++ l') = firstn k l.
Proof.
  intros Hk. rewrite firstn_app.
  replace (k - List.length l)%nat with 0%nat by lia.
  simpl. apply app_nil_r.
Qed.

(** X1.  A sentence of at most [max_seq_len - 2] tokens keeps its separator:
    what is converted is the sentence, ["[SEP]"], and ["[UNK]"] up to
    [max_seq_len - 1] tokens. *)
Theorem encode_sentence_keeps_separator (self : TV.t) (s : string) :
  Py.len (tokenize (tokenizer self) s) <= max_seq_len self - 2 ->
  encode_sentence self s
  = convert_tokens_to_ids (tokenizer self)
      (tokenize (tokenizer self) s
       ++ "[SEP]"
          :: repeat "[UNK]"
               (Z.to_nat (max_seq_len self - 2
                          - Py.len (tokenize (tokenizer self) s)))).
Proof.
  intros Hle.
  assert (Hsep : Py.len (with_separator (tokenizer self) s)
                 = Py.len (tokenize (tokenizer self) s) + 1).
  { unfold with_separator. now rewrite len_app. }
  pose proof (len_nonneg (tokenize (tokenizer self) s)) as Hnn.
  destruct (Z.lt_ge_cases (Py.len (with_separator (tokenizer self) s))
                          (max_seq_len self - 1)) as [Hlt | Hge].
  - rewrite encode_sentence_pad_branch by assumption.
    rewrite Hsep. unfold with_separator. rewrite <- app_assoc. simpl.
    do 4 f_equal. lia.
  - rewrite encode_sentence_slice_branch by assumption.
    rewrite slice_prefix by lia.
    replace (Z.to_nat (max_seq_len self - 1))
      with (List.length (with_separator (tokenizer self) s))
      by (unfold Py.len in *; lia).
    rewrite firstn_all.
    replace (max_seq_len self - 2 - Py.len (tokenize (tokenizer self) s))
      with 0 by lia.
    reflexivity.
Qed.

Lemma encode_sentence_keeps_separator_witness :
  Py.len (tokenize Reference.tokenizer "hi there") <= 4 - 2
  /\ encode_sentence (TV.__init__ Reference.tokenizer 4) "hi there"
     = [7632; 2045; 102].
Proof.
  assert (H : Py.len (tokenize Reference.tokenizer "hi there") <= 4 - 2)
    by (vm_compute; discriminate).
  split; [exact H|].
  exact (encode_sentence_keeps_separator
           (TV.__init__ Reference.tokenizer 4) "hi there" H).
Defined.

(** X2.  A sentence of [max_seq_len - 1] tokens or more is cut to its own
    first [max_seq_len - 1] tokens: no separator is converted. *)
Theorem encode_sentence_drops_separator (self : TV.t) (s : string) :
  1 <= max_seq_len self ->
  max_seq_len self - 1 <= Py.len (tokenize (tokenizer self) s) ->
  encode_sentence self s
  = convert_tokens_to_ids (tokenizer self)
      (firstn (Z.to_nat (max_seq_len self - 1))
              (tokenize (tokenizer self) s)).
Proof.
  intros HL Hge.
  rewrite encode_sentence_slice_branch
    by (unfold with_separator; rewrite len_app; unfold Py.len in *;
        simpl; lia).
  rewrite slice_prefix by lia. unfold with_separator.
  rewrite firstn_app_left by (unfold Py.len in Hge; lia).
  reflexivity.
Qed.

Lemma encode_sentence_drops_separator_witness :
  1 <= 2
  /\ 2 - 1 <= Py.len (tokenize Reference.tokenizer "hi there")
  /\ encode_sentence (TV.__init__ Reference.tokenizer 2) "hi there"
     = [7632].
Proof.
  assert (H1 : 1 <= 2) by lia.
  assert (H2 : 2 - 1 <= Py.len (tokenize Reference.tokenizer "hi there"))
    by (vm_compute; discriminate).
  split; [exact H1|]. split; [exact H2|].
  exact (encode_sentence_drops_separator
           (TV.__init__ Reference.tokenizer 2) "hi there" H1 H2).
Defined.

Lemma encode_sentence_negative_slice (self : TV.t) (s : string) :
  max_seq_len self <= 0 ->
  encode_sentence self s
  = convert_tokens_to_ids (tokenizer self)
      (firstn (Z.to_nat (Py.len (tokenize (tokenizer self) s)
                         + max_seq_len self))
              (tokenize (tokenizer self) s)).
Proof.
  intros HL.
  pose proof (len_nonneg (tokenize (tokenizer self) s)) as Hnn.
  rewrite encode_sentence_slice_branch
    by (unfold with_separator; rewrite len_app; unfold Py.len in *;
        simpl; lia).
  rewrite slice_prefix_neg by lia. unfold with_separator.
  rewrite length_app. simpl List.length.
  replace (List.length (tokenize (tokenizer self) s) + 1
           - Z.to_nat (- (max_seq_len self - 1)))%nat
    with (Z.to_nat (Py.len (tokenize (tokenizer self) s) + max_seq_len self))
    by (unfold Py.len in *; lia).
  rewrite firstn_app_left by (unfold Py.len in *; lia).
  reflexivity.
Qed.

(** X3.  With [max_seq_len <= 0] the bound of the slice is negative and
    counts from the end: what is converted is the sentence without its
    last [- max_seq_len] tokens, so the number of ids follows the
    sentence; with [max_seq_len = 0] it is the whole sentence. *)
Theorem encode_sentence_nonpositive_max_seq_len (self : TV.t) (s : string) :
  max_seq_len self <= 0 ->
  encode_sentence self s
  = convert_tokens_to_ids (tokenizer self)
      (firstn (Z.to_nat (Py.len (tokenize (tokenizer self) s)
                         + max_seq_len self))
              (tokenize (tokenizer self) s))
  /\ (max_seq_len self = 0 ->
      encode_sentence self s
      = convert_tokens_to_ids (tokenizer self)
          (tokenize (tokenizer self) s)).
Proof.
  intros HL. split; [now apply encode_sentence_negative_slice|].
  intros H0. rewrite encode_sentence_negative_slice by assumption.
  rewrite H0, Z.add_0_r. unfold Py.len. rewrite Nat2Z.id.
  now rewrite firstn_all.
Qed.

Lemma encode_sentence_nonpositive_max_seq_len_witness :
  0 <= 0
  /\ encode_sentence (TV.__init__ Reference.tokenizer 0) "hi there"
     = [7632; 2045].
Proof.
  assert (H : 0 <= 0) by lia.
  split; [exact H|].
  exact (proj1 (encode_sentence_nonpositive_max_seq_len
                  (TV.__init__ Reference.tokenizer 0) "hi there" H)).
Defined.

(* ===================================================================== *)
(** * More on bert_encode *)
(* ===================================================================== *)

Lemma forallb_false {A : Type} (f : A -> bool) (l : list A) (x : A) :
  In x l -> f x = false -> forallb f l = false.
Proof.
  intros Hin Hx. destruct (forallb f l) eqn:Hall; [|reflexivity].
  rewrite forallb_forall in Hall. rewrite (Hall x Hin) in Hx. discriminate.
Qed.

(** [tf.constant] refuses rows of different lengths. *)
Lemma constant_ragged (row : list Z) (rows : list (list Z)) (other : list Z) :
  In other rows -> List.length other <> List.length row ->
  TF.constant (row :: rows) = Raise ValueError_constant.
Proof.
  intros Hin Hne. unfold TF.constant, TF.rectangular.
  rewrite (forallb_false _ (row :: rows) other); [reflexivity | now right |].
  simpl. now apply Nat.eqb_neq.
Qed.

(** X4.  With [max_seq_len <= 0] the rows of a batch need not have one
    length: when two sentences keep different numbers of tokens,
    [tf.constant] raises on the ragged list and [bert_encode] with it. *)
Theorem bert_encode_raises_on_ragged_batch
    (self : TV.t) (s1 s2 : string) (rest : list string) :
  max_seq_len self <= 0 ->
  length_preserving (tokenizer self) ->
  In s2 rest ->
  Z.max 0 (Py.len (tokenize (tokenizer self) s2) + max_seq_len self)
  <> Z.max 0 (Py.len (tokenize (tokenizer self) s1) + max_seq_len self) ->
  bert_encode self (as_batch (s1 :: rest)) = Raise ValueError_constant.
Proof.
  intros HL Hconv Hin Hne.
  assert (Hlen : forall s,
             Z.of_nat (List.length (encode_sentence self s))
             = Z.max 0 (Py.len (tokenize (tokenizer self) s)
                        + max_seq_len self)).
  { intros s. rewrite encode_sentence_negative_slice by assumption.
    rewrite Hconv, length_firstn. unfold Py.len. lia. }
  unfold bert_encode, get_encoded_sentence.
  rewrite mapM_first_entry. simpl map. simpl bind at 2.
  rewrite (constant_ragged _ _ (encode_sentence self s2)).
  - reflexivity.
  - apply in_map. exact Hin.
  - intros Heq. apply Hne. rewrite <- !Hlen. now rewrite Heq.
Qed.

Lemma bert_encode_raises_on_ragged_batch_witness :
  bert_encode (TV.__init__ Reference.tokenizer 0)
    (as_batch ["hi there"; "hi"])
  = Raise ValueError_constant.
Proof.
  apply (bert_encode_raises_on_ragged_batch
           (TV.__init__ Reference.tokenizer 0) "hi there" "hi" ["hi"]).
  - simpl. lia.
  - exact reference_tokenizer_length_preserving.
  - now left.
  - vm_compute. discriminate.
Defined.

Lemma mapM_rows_first_entry {B : Type} (f : string -> B)
    (rows : list (list string)) :
  Forall (fun row => row <> []) rows ->
  mapM (fun s => s0 <- Py.getitem s 0 ;; Ok (f s0)) rows
  = Ok (map (fun row => f (first_entry row)) rows).
Proof.
  intros Hall. apply mapM_total. intros row Hin.
  rewrite Forall_forall in Hall. specialize (Hall row Hin).
  destruct row as [|s row']; [contradiction | reflexivity].
Qed.

Lemma mapM_rows_empty_row {B : Type} (f : string -> B)
    (rows : list (list string)) :
  In [] rows ->
  mapM (fun s => s0 <- Py.getitem s 0 ;; Ok (f s0)) rows = Raise IndexError.
Proof.
  induction rows as [|row rows IH]; [contradiction|].
  intros Hin. simpl.
  destruct row as [|s row']; [reflexivity|]. simpl.
  destruct Hin as [Heq | Hin]; [discriminate|].
  now rewrite (IH Hin).
Qed.

(** X5.  [bert_encode] reads the first entry of each row and nothing else of
    it; a row without any entry raises [IndexError]. *)
Theorem bert_encode_reads_first_entry
    (self : TV.t) (rows : list (list string)) :
  (Forall (fun row => row <> []) rows ->
   bert_encode self rows
   = bert_encode self (as_batch (map first_entry rows)))
  /\ (In [] rows -> bert_encode self rows = Raise IndexError).
Proof.
  unfold bert_encode, get_encoded_sentence. split.
  - intros Hall. rewrite mapM_rows_first_entry by assumption.
    rewrite mapM_first_entry. now rewrite map_map.
  - intros Hin. now rewrite mapM_rows_empty_row.
Qed.

Lemma bert_encode_reads_first_entry_witness :
  bert_encode (TV.__init__ Reference.tokenizer 4)
    [["hi there"; "ignored"]; ["hi"; "also"; "ignored"]]
  = bert_encode (TV.__init__ Reference.tokenizer 4)
      (as_batch ["hi there"; "hi"])
  /\ bert_encode (TV.__init__ Reference.tokenizer 4) [["hi"]; []]
     = Raise IndexError.
Proof.
  split.
  - apply (proj1 (bert_encode_reads_first_entry
                    (TV.__init__ Reference.tokenizer 4)
                    [["hi there"; "ignored"]; ["hi"; "also"; "ignored"]])).
    repeat constructor; discriminate.
  - apply (proj2 (bert_encode_reads_first_entry
                    (TV.__init__ Reference.tokenizer 4) [["hi"]; []])).
    simpl. auto.
Defined.

(** X6.  The encoding works row by row: the encoding of two batches put
    together is made of the three tensors of the one followed by the
    three tensors of the other. *)
Theorem bert_encode_app
    (self : TV.t) (batch1 batch2 : list string)
    (ids1 mask1 types1 ids2 mask2 types2 : TF.Matrix) :
  2 <= max_seq_len self ->
  length_preserving (tokenizer self) ->
  bert_encode self (as_batch batch1) = Ok [ids1; mask1; types1] ->
  bert_encode self (as_batch batch2) = Ok [ids2; mask2; types2] ->
  bert_encode self (as_batch (batch1 ++ batch2))
  = Ok [ids1 ++ ids2; mask1 ++ mask2; types1 ++ types2].
Proof.
  intros HL Hconv H1 H2.
  rewrite bert_encode_batch in H1, H2 |- * by (assumption || lia).
  injection H1 as <- <- <-. injection H2 as <- <- <-.
  now rewrite !map_app.
Qed.

Lemma bert_encode_app_witness :
  bert_encode (TV.__init__ Reference.tokenizer 3) (as_batch (["hi"] ++ [""]))
  = Ok [[[101; 7632; 102]] ++ [[101; 102; 100]];
        [[1; 1; 1]] ++ [[1; 1; 1]];
        [[0; 0; 0]] ++ [[0; 0; 0]]].
Proof.
  apply (bert_encode_app (TV.__init__ Reference.tokenizer 3) ["hi"] [""]).
  - simpl. lia.
  - exact reference_tokenizer_length_preserving.
  - reflexivity.
  - reflexivity.
Defined.

(* ===================================================================== *)
(** * More on MultiCategoryEncoding: the constructor and call *)
(* ===================================================================== *)

Lemma init_loop_filter (fw : TF.Framework) (tags : list string) :
  forall layers,
    MCE.init_loop fw tags layers
    = layers ++ map (tag_layer fw) (filter known_tag tags).
Proof.
  induction tags as [|tag tags IH]; intros layers; simpl.
  - now rewrite app_nil_r.
  - rewrite IH. unfold known_tag, tag_layer.
    destruct (String.eqb tag NONE) eqn:Hnone; simpl.
    + apply String.eqb_eq in Hnone. subst tag. simpl.
      now rewrite <- app_assoc.
    + destruct (String.eqb tag INT) eqn:Hint; simpl.
      * rewrite Hint. now rewrite <- app_assoc.
      * destruct (String.eqb tag ONE_HOT) eqn:Hoh; simpl.
        -- rewrite Hint. now rewrite <- app_assoc.
        -- reflexivity.
Qed.

Lemma filter_length_all {A : Type} (f : A -> bool) (l : list A) :
  List.length (filter f l) = List.length l <-> forallb f l = true.
Proof.
  induction l as [|a l IH]; simpl; [tauto|].
  pose proof (filter_length_le f l) as Hle.
  destruct (f a); simpl.
  - rewrite <- IH. lia.
  - split; [lia | discriminate].
Qed.

Lemma init_layers_filter
    (fw : TF.Framework) (encoding : list string) :
  MCE.encoding_layers (MCE.__init__ fw encoding)
  = map (tag_layer fw) (filter known_tag encoding)
  /\ (List.length (filter known_tag encoding) <= List.length encoding)%nat.
Proof.
  split; [simpl; now rewrite init_loop_filter | apply filter_length_le].
Qed.

(** X7.  The constructor makes one entry per recognised tag and none for any
    other tag, without raising: [encoding_layers] is as long as
    [encoding] exactly when every tag is one of the three. *)
Theorem init_drops_unknown_tags (fw : TF.Framework) (encoding : list string) :
  MCE.encoding_layers (MCE.__init__ fw encoding)
  = map (tag_layer fw) (filter known_tag encoding)
  /\ (List.length (MCE.encoding_layers (MCE.__init__ fw encoding))
      <= List.length encoding)%nat
  /\ (List.length (MCE.encoding_layers (MCE.__init__ fw encoding))
      = List.length encoding
      <-> forallb known_tag encoding = true).
Proof.
  assert (Hlayers : MCE.encoding_layers (MCE.__init__ fw encoding)
                    = map (tag_layer fw) (filter known_tag encoding)).
  { simpl. now rewrite init_loop_filter. }
  rewrite Hlayers, length_map. split; [reflexivity|]. split.
  - apply filter_length_le.
  - apply filter_length_all.
Qed.

Lemma to_number_raises (fw : TF.Framework) (column : TF.Column string)
    (e : exn) :
  TF.to_number fw column = Raise e ->
  exists s : string,
    In s column /\ accepted fw s = false
    /\ e = InvalidArgumentError_to_number s.
Proof.
  unfold TF.to_number. intros Hrun. apply mapM_raises in Hrun.
  destruct Hrun as (s & Hin & Hs). exists s. unfold accepted.
  destruct (TF.parse_float fw s); [discriminate|].
  injection Hs as <-. auto.
Qed.

Lemma mapM_length {A B : Type} (f : A -> result B) (l : list A)
    (out : list B) :
  mapM f l = Ok out -> List.length out = List.length l.
Proof.
  revert out. induction l as [|a l IH]; intros out; simpl.
  - intros H. now injection H as <-.
  - destruct (f a); simpl; [|discriminate].
    destruct (mapM f l) as [bs|]; simpl; [|discriminate].
    intros H. injection H as <-. simpl. now rewrite (IH bs eq_refl).
Qed.

(** X8.  [call] raises nothing but the error of the split, the error of
    the concatenation, the error of the number parser on a string of
    the input that the parser rejects, or the error of a lookup layer
    of [encoding_layers] that cannot be called. *)
Theorem call_raises_only_four_errors
    (fw : TF.Framework) (self : MCE.t fw) (inputs : TF.Table string)
    (e : exn) :
  MCE.call self inputs = Raise e ->
  e = InvalidArgumentError_split
  \/ e = ValueError_Concatenate
  \/ (exists (column : TF.Column string) (s : string),
        In column inputs /\ In s column /\ accepted fw s = false
        /\ e = InvalidArgumentError_to_number s)
  \/ (e = FailedPreconditionError_lookup
      /\ exists layer : TF.StringLookup fw,
           In (Some layer) (MCE.encoding_layers self)
           /\ TF.StringLookup_call fw layer = None).
Proof.
  rewrite call_unfold.
  destruct (MCE.encoding self) as [|tag tags];
    [intros H; injection H as <-; now left|].
  destruct (Py.len inputs =? Py.len (tag :: tags));
    [|intros H; injection H as <-; now left].
  destruct (mapM _ _) as [output | e'] eqn:Hloop.
  - destruct output; intros H; [|discriminate].
    injection H as <-. right. now left.
  - intros H. injection H as ->. right. right.
    apply mapM_raises in Hloop. destruct Hloop as ([column layer] & Hin & Hp).
    cbn [fst snd] in Hp.
    apply call_column_raises in Hp.
    destruct Hp as [(_ & s & Hs & Hrej & ->) | (-> & l & -> & Hcall)].
    + left. apply in_combine_l in Hin. now exists column, s.
    + right. split; [reflexivity|]. apply in_combine_r in Hin.
      now exists l.
Qed.

Lemma call_raises_only_four_errors_witness :
  (exists (column : TF.Column string) (s : string),
      In column [["1"; "2"]; ["3"; "x"]] /\ In s column
      /\ accepted Reference.framework s = false
      /\ InvalidArgumentError_to_number "x"
         = InvalidArgumentError_to_number s)
  /\ exists layer : TF.StringLookup Reference.framework,
       In (Some layer)
          (MCE.encoding_layers (MCE.__init__ Reference.framework [INT]))
       /\ TF.StringLookup_call Reference.framework layer = None.
Proof.
  split.
  - destruct (call_raises_only_four_errors Reference.framework
                (MCE.__init__ Reference.framework [NONE; NONE])
                [["1"; "2"]; ["3"; "x"]]
                (InvalidArgumentError_to_number "x") eq_refl)
      as [H | [H | [H | (H & _)]]];
      [discriminate | discriminate | exact H | discriminate].
  - destruct (call_raises_only_four_errors Reference.framework
                (MCE.__init__ Reference.framework [INT])
                [["a"; "b"]] FailedPreconditionError_lookup eq_refl)
      as [H | [H | [(c & s & _ & _ & _ & H) | (_ & H)]]];
      [discriminate | discriminate | discriminate | exact H].
Defined.

(** X9.  The concatenation raises exactly when the layer has a tag, the
    counts agree and [encoding_layers] has no entry, as for a layer made
    from tags that are all unrecognised: the loop then has nothing to
    run on. *)
Theorem call_raises_concatenate_error_iff
    (fw : TF.Framework) (self : MCE.t fw) (inputs : TF.Table string) :
  MCE.call self inputs = Raise ValueError_Concatenate
  <-> MCE.encoding self <> []
      /\ Py.len inputs = Py.len (MCE.encoding self)
      /\ MCE.encoding_layers self = [].
Proof.
  rewrite call_unfold.
  destruct (MCE.encoding self) as [|tag tags] eqn:Henc.
  - split; [discriminate | intros (Hne & _); now contradiction Hne].
  - destruct (Py.len inputs =? Py.len (tag :: tags)) eqn:Hlen.
    + apply Z.eqb_eq in Hlen.
      destruct (mapM _ _) as [output | e] eqn:Hloop.
      * apply mapM_length in Hloop.
        destruct output as [|node output].
        -- split; [|reflexivity]. intros _.
           split; [discriminate|]. split; [exact Hlen|].
           destruct (MCE.encoding_layers self); [reflexivity|].
           destruct inputs; [|discriminate].
           unfold Py.len in Hlen. simpl in Hlen. lia.
        -- split; [discriminate|]. intros (_ & _ & Hnil).
           rewrite Hnil in Hloop. destruct inputs; discriminate.
      * split.
        -- intros H. injection H as ->. apply mapM_raises in Hloop.
           destruct Hloop as (p & _ & Hp).
           apply call_column_raises in Hp.
           destruct Hp as [(_ & s & _ & _ & Hs) | (Hs & _)]; discriminate.
        -- intros (_ & _ & Hnil).
           rewrite Hnil in Hloop. destruct inputs; discriminate.
    + apply Z.eqb_neq in Hlen. split; [discriminate|].
      intros (_ & Heq & _). contradiction.
Qed.

Lemma call_raises_concatenate_error_iff_witness :
  MCE.call (MCE.__init__ Reference.framework ["label"]) [["a"; "b"]]
  = Raise ValueError_Concatenate.
Proof.
  apply (call_raises_concatenate_error_iff Reference.framework
           (MCE.__init__ Reference.framework ["label"]) [["a"; "b"]]).
  split; [discriminate|]. split; reflexivity.
Defined.

(* ===================================================================== *)
(** * More on MultiCategoryEncoding: what call returns *)
(* ===================================================================== *)

Lemma call_returns_counts (fw : TF.Framework) (self : MCE.t fw)
    (inputs : TF.Table string) (output : TF.Table TF.float32) :
  MCE.call self inputs = Ok output ->
  List.length inputs = List.length (MCE.encoding self).
Proof.
  rewrite call_unfold.
  destruct (MCE.encoding self) as [|tag tags]; [discriminate|].
  destruct (Py.len inputs =? Py.len (tag :: tags)) eqn:Hlen;
    [|discriminate].
  intros _. apply Z.eqb_eq in Hlen. unfold Py.len in Hlen. lia.
Qed.

Lemma to_number_length (fw : TF.Framework) (column : TF.Column string)
    (number : TF.Column TF.float32) :
  TF.to_number fw column = Ok number ->
  List.length number = List.length column.
Proof. unfold TF.to_number. apply mapM_length. Qed.

(** The loop body returns one value per row. *)
Lemma call_column_length (fw : TF.Framework) (column : TF.Column string)
    (layer : option (TF.StringLookup fw)) (node : TF.Column TF.float32) :
  MCE.call_column column layer = Ok node ->
  List.length node = List.length column.
Proof.
  destruct layer as [layer|].
  - rewrite call_column_lookup.
    destruct (TF.StringLookup_call fw layer); [|discriminate].
    intros H. injection H as <-. apply length_map.
  - rewrite call_column_none.
    destruct (TF.to_number fw column) as [number|] eqn:Hnum; [|discriminate].
    simpl. intros H. injection H as <-.
    rewrite length_map. now apply (to_number_length fw).
Qed.

Lemma nth_error_combine_inv {A B : Type} (l : list A) (l' : list B)
    (i : nat) (a : A) (b : B) :
  nth_error (combine l l') i = Some (a, b) ->
  nth_error l i = Some a /\ nth_error l' i = Some b.
Proof.
  revert l' i. induction l as [|x l IH]; intros l' i H.
  - destruct i; discriminate.
  - destruct l' as [|y l']; [destruct i; discriminate|].
    destruct i as [|i]; simpl in *.
    + injection H as -> ->. auto.
    + now apply IH.
Qed.

Lemma mapM_nth_error_inv {A B : Type} (f : A -> result B) (l : list A)
    (out : list B) :
  mapM f l = Ok out ->
  forall (i : nat) (b : B),
    nth_error out i = Some b ->
    exists a : A, nth_error l i = Some a /\ f a = Ok b.
Proof.
  revert out. induction l as [|x l IH]; intros out Hrun i b Hi.
  - simpl in Hrun. injection Hrun as <-. destruct i; discriminate.
  - simpl in Hrun.
    destruct (f x) as [y|] eqn:Hx; simpl in Hrun; [|discriminate].
    destruct (mapM f l) as [ys|] eqn:Hl; simpl in Hrun; [|discriminate].
    injection Hrun as <-.
    destruct i as [|i]; simpl in *.
    + injection Hi as <-. now exists x.
    + now apply (IH ys eq_refl i b).
Qed.

Lemma call_column_of_output
    (fw : TF.Framework) (self : MCE.t fw) (inputs : TF.Table string)
    (output : TF.Table TF.float32) (i : nat) (node : TF.Column TF.float32) :
  MCE.call self inputs = Ok output ->
  nth_error output i = Some node ->
  exists (column : TF.Column string) (layer : option (TF.StringLookup fw)),
    nth_error inputs i = Some column
    /\ nth_error (MCE.encoding_layers self) i = Some layer
    /\ MCE.call_column column layer = Ok node.
Proof.
  intros Hrun Hnode. apply call_returns in Hrun.
  destruct (mapM_nth_error_inv _ _ output Hrun i node Hnode)
    as ([column layer] & Hpair & Hcol).
  apply nth_error_combine_inv in Hpair. destruct Hpair as (Hin & Hlayer).
  now exists column, layer.
Qed.

(** X10.  Column [i] of what [call] returns is made from column [i] of the
    input by entry [i] of [encoding_layers], and has one value per row
    of that column. *)
Theorem call_keeps_rows
    (fw : TF.Framework) (self : MCE.t fw) (inputs : TF.Table string)
    (output : TF.Table TF.float32) (i : nat) (node : TF.Column TF.float32) :
  MCE.call self inputs = Ok output ->
  nth_error output i = Some node ->
  exists (column : TF.Column string) (layer : option (TF.StringLookup fw)),
    nth_error inputs i = Some column
    /\ nth_error (MCE.encoding_layers self) i = Some layer
    /\ MCE.call_column column layer = Ok node
    /\ List.length node = List.length column.
Proof.
  intros Hrun Hnode. apply call_returns in Hrun.
  destruct (mapM_nth_error_inv _ _ output Hrun i node Hnode)
    as ([column layer] & Hpair & Hcol).
  apply nth_error_combine_inv in Hpair. destruct Hpair as (Hin & Hlayer).
  simpl in Hcol. exists column, layer.
  repeat split; try assumption. now apply (call_column_length fw column layer).
Qed.

Lemma call_keeps_rows_witness :
  exists (column : TF.Column string)
         (layer : option (TF.StringLookup Reference.framework)),
    nth_error [["7"; "8"; "9"]; ["1.5"; "NaN"; "2"]] 1 = Some column
    /\ nth_error (MCE.encoding_layers
                    (MCE.__init__ Reference.framework [ONE_HOT; NONE])) 1
       = Some layer
    /\ MCE.call_column column layer
       = Ok [Reference.f32 false 12582912 (-23); TF.zero;
             Reference.f32 false 8388608 (-22)]
    /\ List.length [Reference.f32 false 12582912 (-23); TF.zero;
                    Reference.f32 false 8388608 (-22)]
       = List.length column.
Proof.
  exact (call_keeps_rows Reference.framework
           (MCE.__init__ Reference.framework [ONE_HOT; NONE])
           [["7"; "8"; "9"]; ["1.5"; "NaN"; "2"]]
           _ 1%nat _ eq_refl eq_refl).
Defined.

(** X11.  What [call] returns has one column per recognised tag: with a tag
    that is none of the three, the last columns of the input are left
    out of the result without any error. *)
Theorem call_returns_one_column_per_known_tag
    (fw : TF.Framework) (encoding : list string) (inputs : TF.Table string)
    (output : TF.Table TF.float32) :
  MCE.call (MCE.__init__ fw encoding) inputs = Ok output ->
  List.length output = List.length (filter known_tag encoding)
  /\ (forallb known_tag encoding = true ->
      List.length output = List.length inputs).
Proof.
  intros Hrun.
  pose proof (call_returns_counts fw _ inputs output Hrun) as Hcount.
  simpl in Hcount.
  apply call_returns in Hrun. apply mapM_length in Hrun.
  unfold Py.zip in Hrun. rewrite length_combine in Hrun.
  destruct (init_layers_filter fw encoding) as (Hlayers & Hle).
  rewrite Hlayers, length_map in Hrun.
  pose proof (filter_length_le known_tag encoding) as Hfl.
  split; [lia|].
  intros Hknown. apply filter_length_all in Hknown. lia.
Qed.

Lemma call_returns_one_column_per_known_tag_witness :
  List.length [[Reference.f32 false 12582912 (-23)]]
  = List.length (filter known_tag [NONE; "label"]).
Proof.
  exact (proj1 (call_returns_one_column_per_known_tag Reference.framework
                  [NONE; "label"] [["1.5"]; ["x"]] _ eq_refl)).
Defined.

(** A column whose entry of [encoding_layers] is [None], for any layer
    object. *)
Lemma call_without_lookup_returns (fw : TF.Framework) (self : MCE.t fw)
    (inputs : TF.Table string) (i : nat) (column : TF.Column string)
    (output : TF.Table TF.float32) :
  nth_error (MCE.encoding_layers self) i = Some None ->
  nth_error inputs i = Some column ->
  MCE.call self inputs = Ok output ->
  (forall s, In s column -> accepted fw s = true)
  /\ nth_error output i = Some (map (fun s => impute (parsed fw s)) column).
Proof.
  intros Hlayer Hcol Hrun. apply call_returns in Hrun.
  pose proof (nth_error_combine _ _ i _ _ Hcol Hlayer) as Hpair.
  destruct (mapM_nth_error _ _ output Hrun i _ Hpair) as (node & Hnode & Hout).
  cbn [fst snd] in Hnode. rewrite call_column_none in Hnode.
  destruct (TF.to_number fw column) as [number|] eqn:Hnum; simpl in Hnode;
    [|discriminate].
  injection Hnode as <-.
  destruct (to_number_returns fw column number Hnum) as (Hall & ->).
  split; [exact Hall|]. now rewrite Hout, map_map.
Qed.

Lemma impute_not_nan (x : TF.float32) : TF.is_nan (impute x) = false.
Proof. unfold impute. destruct x; reflexivity. Qed.

(** X12.  A column made without lookup layer never holds a NaN. *)
Theorem call_returns_no_nan_without_lookup
    (fw : TF.Framework) (self : MCE.t fw) (inputs : TF.Table string)
    (output : TF.Table TF.float32) (i : nat) (node : TF.Column TF.float32) :
  MCE.call self inputs = Ok output ->
  nth_error (MCE.encoding_layers self) i = Some None ->
  nth_error output i = Some node ->
  Forall (fun x => TF.is_nan x = false) node.
Proof.
  intros Hrun Hlayer Hnode.
  destruct (call_column_of_output fw self inputs output i node Hrun Hnode)
    as (column & layer & Hcol & Hlayer' & _).
  destruct (call_without_lookup_returns fw self inputs i column output
              Hlayer Hcol Hrun) as (_ & Hout).
  rewrite Hnode in Hout. injection Hout as ->.
  apply Forall_forall. intros x Hin. apply in_map_iff in Hin.
  destruct Hin as (s & <- & _). apply impute_not_nan.
Qed.

Lemma call_returns_no_nan_without_lookup_witness :
  Forall (fun x => TF.is_nan x = false)
         [TF.zero; Reference.f32 false 12582912 (-23); S754_infinity false].
Proof.
  exact (call_returns_no_nan_without_lookup Reference.framework
           (MCE.__init__ Reference.framework [ONE_HOT])
           [["nan"; "1.5"; "inf"]] _ 0%nat _ eq_refl eq_refl eq_refl).
Defined.

Lemma map_fst_combine {A B : Type} (l : list A) (l' : list B) :
  (List.length l <= List.length l')%nat -> map fst (combine l l') = l.
Proof.
  revert l'. induction l as [|a l IH]; intros l' Hle; [reflexivity|].
  destruct l' as [|b l']; simpl in *; [lia|].
  rewrite IH by lia. reflexivity.
Qed.

(** X13.  When every entry of [encoding_layers] is a lookup layer
    that can be called, [call] never raises on the values of its input:
    with a tag, as many columns as tags and as many entries, it returns
    for every string the index its lookup layer gives it, as a float. *)
Theorem call_with_callable_lookups_returns
    (fw : TF.Framework) (self : MCE.t fw) (inputs : TF.Table string) :
  MCE.encoding self <> [] ->
  List.length inputs = List.length (MCE.encoding self) ->
  List.length (MCE.encoding_layers self) = List.length inputs ->
  (forall entry, In entry (MCE.encoding_layers self) ->
                 exists layer index,
                   entry = Some layer
                   /\ TF.StringLookup_call fw layer = Some index) ->
  exists output : TF.Table TF.float32,
    MCE.call self inputs = Ok output
    /\ forall i column layer index,
         nth_error inputs i = Some column ->
         nth_error (MCE.encoding_layers self) i = Some (Some layer) ->
         TF.StringLookup_call fw layer = Some index ->
         nth_error output i
         = Some (map (fun s => TF.cast_float32 (index s)) column).
Proof.
  intros Hne Hcount Hlayers Hcallable.
  pose (made := fun p : TF.Column string * option (TF.StringLookup fw) =>
                  match snd p with
                  | Some layer =>
                      match TF.StringLookup_call fw layer with
                      | Some index =>
                          map (fun s => TF.cast_float32 (index s)) (fst p)
                      | None => []
                      end
                  | None => []
                  end).
  assert (Hloop :
            mapM (fun p : TF.Column string * option (TF.StringLookup fw) =>
                    MCE.call_column (fst p) (snd p))
                 (combine inputs (MCE.encoding_layers self))
            = Ok (map made (combine inputs (MCE.encoding_layers self)))).
  { apply mapM_total. intros [column entry] Hin.
    apply in_combine_r in Hin.
    destruct (Hcallable entry Hin) as (layer & index & -> & Hcall).
    cbn [fst snd]. rewrite call_column_lookup, Hcall.
    unfold made. cbn [fst snd]. now rewrite Hcall. }
  exists (map made (combine inputs (MCE.encoding_layers self))).
  split.
  - rewrite call_unfold, Hloop.
    destruct (MCE.encoding self) as [|tag tags] eqn:Henc;
      [now contradiction Hne|].
    replace (Py.len inputs =? Py.len (tag :: tags)) with true
      by (symmetry; apply Z.eqb_eq; unfold Py.len; lia).
    destruct inputs as [|column inputs]; [discriminate|].
    destruct (MCE.encoding_layers self); [discriminate | reflexivity].
  - intros i column layer index Hcol Hlayer Hcall.
    rewrite nth_error_map.
    rewrite (nth_error_combine _ _ i _ _ Hcol Hlayer).
    simpl. unfold made. cbn [fst snd]. now rewrite Hcall.
Qed.

Lemma call_with_callable_lookups_returns_witness :
  exists output : TF.Table TF.float32,
    MCE.call (MCE.Build_t Reference.framework [INT; INT]
                [Some (Some ["a"]); Some (Some [])])
             [["a"; "nan"]; [""; "1.5"]]
    = Ok output.
Proof.
  destruct (call_with_callable_lookups_returns Reference.framework
              (MCE.Build_t Reference.framework [INT; INT]
                 [Some (Some ["a"]); Some (Some [])])
              [["a"; "nan"]; [""; "1.5"]]) as (output & Hrun & _).
  - discriminate.
  - reflexivity.
  - reflexivity.
  - intros entry [<- | [<- | []]]; do 2 eexists; split; reflexivity.
  - now exists output.
Defined.

(* ===================================================================== *)
(** * More on MultiCategoryEncoding: build and adapt *)
(* ===================================================================== *)

Lemma adapt_loop_returns (fw : TF.Framework) (data : list (TF.Table string))
    (layers : list (option (TF.StringLookup fw))) :
  forall (index : nat) (layers' : list (option (TF.StringLookup fw))),
    MCE.adapt_loop fw index layers data = Ok layers' ->
    map is_lookup layers' = map is_lookup layers
    /\ (forall i, nth_error layers i = Some None ->
                  nth_error layers' i = Some None)
    /\ (forall i layer,
          nth_error layers i = Some (Some layer) ->
          exists data_column : list (TF.Column string),
            mapM (fun x => TF.slice_column x (index + i)) data
            = Ok data_column
            /\ nth_error layers' i
               = Some (Some (TF.StringLookup_adapt fw layer data_column))).
Proof.
  induction layers as [|entry layers IH]; intros index layers' Hrun.
  - simpl in Hrun. injection Hrun as <-.
    repeat split; intros i; destruct i; discriminate.
  - simpl in Hrun. destruct entry as [layer0|].
    + destruct (mapM _ data) as [data_column|] eqn:Hcol; [|discriminate].
      simpl in Hrun.
      destruct (MCE.adapt_loop fw (S index) layers data) as [rest'|] eqn:Hrest;
        [|discriminate].
      simpl in Hrun. injection Hrun as <-.
      destruct (IH (S index) rest' Hrest) as (Hpat & Hnone & Hsome).
      split; [simpl; now rewrite Hpat|]. split.
      * intros [|i] Hi; [discriminate|]. simpl in *. now apply Hnone.
      * intros [|i] layer Hi; simpl in *.
        -- injection Hi as <-. exists data_column.
           rewrite Nat.add_0_r. auto.
        -- destruct (Hsome i layer Hi) as (cols & Hcols & Hnth).
           exists cols. rewrite Nat.add_succ_r. auto.
    + destruct (MCE.adapt_loop fw (S index) layers data) as [rest'|] eqn:Hrest;
        [|discriminate].
      simpl in Hrun. injection Hrun as <-.
      destruct (IH (S index) rest' Hrest) as (Hpat & Hnone & Hsome).
      split; [simpl; now rewrite Hpat|]. split.
      * intros [|i] Hi; [reflexivity|]. simpl in *. now apply Hnone.
      * intros [|i] layer Hi; simpl in *; [discriminate|].
        destruct (Hsome i layer Hi) as (cols & Hcols & Hnth).
        exists cols. rewrite Nat.add_succ_r. auto.
Qed.

Lemma adapt_keeps_entries
    (fw : TF.Framework) (self self' : MCE.t fw)
    (data : list (TF.Table string)) :
  MCE.adapt self data = Ok self' ->
  (forall i, nth_error (MCE.encoding_layers self) i = Some None ->
             nth_error (MCE.encoding_layers self') i = Some None)
  /\ MCE.encoding self' = MCE.encoding self
  /\ map is_lookup (MCE.encoding_layers self')
     = map is_lookup (MCE.encoding_layers self).
Proof.
  unfold MCE.adapt. intros Hrun.
  destruct (MCE.adapt_loop fw 0 (MCE.encoding_layers self) data)
    as [layers'|] eqn:Hloop; [|discriminate].
  simpl in Hrun. injection Hrun as <-. simpl.
  destruct (adapt_loop_returns fw data _ 0%nat layers' Hloop)
    as (Hpat & Hnone & _).
  auto.
Qed.

(** X14.  When [adapt] returns, the tags are as they were, the entries that
    were [None] are [None], and the lookup layer at position [i] has
    been adapted on column [i] of every batch of the dataset. *)
Theorem adapt_fits_each_lookup_on_its_column
    (fw : TF.Framework) (self self' : MCE.t fw)
    (data : list (TF.Table string)) :
  MCE.adapt self data = Ok self' ->
  MCE.encoding self' = MCE.encoding self
  /\ map is_lookup (MCE.encoding_layers self')
     = map is_lookup (MCE.encoding_layers self)
  /\ (forall i, nth_error (MCE.encoding_layers self) i = Some None ->
                nth_error (MCE.encoding_layers self') i = Some None)
  /\ (forall i layer,
        nth_error (MCE.encoding_layers self) i = Some (Some layer) ->
        exists data_column : list (TF.Column string),
          mapM (fun x => TF.slice_column x i) data = Ok data_column
          /\ nth_error (MCE.encoding_layers self') i
             = Some (Some (TF.StringLookup_adapt fw layer data_column))).
Proof.
  unfold MCE.adapt. intros Hrun.
  destruct (MCE.adapt_loop fw 0 (MCE.encoding_layers self) data)
    as [layers'|] eqn:Hloop; [|discriminate].
  simpl in Hrun. injection Hrun as <-. simpl.
  split; [reflexivity|].
  exact (adapt_loop_returns fw data _ 0%nat layers' Hloop).
Qed.

Lemma adapt_fits_each_lookup_on_its_column_witness :
  exists self' : MCE.t Reference.framework,
    MCE.adapt (MCE.__init__ Reference.framework [NONE; INT])
      [[["1"; "2"; "3"]; ["a"; "b"; "a"]]; [["4"]; ["b"]]]
    = Ok self'
    /\ MCE.encoding self' = [NONE; INT]
    /\ map is_lookup (MCE.encoding_layers self') = [false; true].
Proof.
  eexists. split; [reflexivity|].
  destruct (adapt_fits_each_lookup_on_its_column Reference.framework
              (MCE.__init__ Reference.framework [NONE; INT]) _
              [[["1"; "2"; "3"]; ["a"; "b"; "a"]]; [["4"]; ["b"]]]
              eq_refl) as (Henc & Hpat & _).
  split; [exact Henc | exact Hpat].
Defined.

Lemma mapM_slice_in_range {A : Type} (data : list (TF.Table A)) (i : nat) :
  (forall batch, In batch data -> (i < List.length batch)%nat) ->
  exists data_column,
    mapM (fun x => TF.slice_column x i) data = Ok data_column.
Proof.
  induction data as [|batch data IH]; intros Hwide; simpl.
  - now exists [].
  - destruct (IH (fun b Hb => Hwide b (or_intror Hb))) as (cols & ->).
    unfold TF.slice_column at 1.
    destruct (nth_error batch i) as [c|] eqn:Hc.
    + simpl. now exists (c :: cols).
    + apply nth_error_None in Hc.
      specialize (Hwide batch (or_introl eq_refl)). lia.
Qed.

Lemma adapt_loop_succeeds (fw : TF.Framework) (data : list (TF.Table string))
    (layers : list (option (TF.StringLookup fw))) :
  forall index : nat,
    (forall batch, In batch data ->
                   (index + List.length layers <= List.length batch)%nat) ->
    exists layers', MCE.adapt_loop fw index layers data = Ok layers'.
Proof.
  induction layers as [|entry layers IH]; intros index Hwide; simpl.
  - now exists [].
  - destruct (IH (S index)) as (rest' & Hrest).
    { intros batch Hin. specialize (Hwide batch Hin). simpl in Hwide. lia. }
    rewrite Hrest. destruct entry as [layer|].
    + destruct (mapM_slice_in_range data index) as (cols & ->).
      { intros batch Hin. specialize (Hwide batch Hin). simpl in Hwide. lia. }
      simpl. eexists. reflexivity.
    + simpl. eexists. reflexivity.
Qed.

(** X15.  [adapt] returns when every batch of the dataset has at least as
    many columns as the layer has entries; on an empty dataset it
    always returns. *)
Theorem adapt_succeeds_on_wide_batches
    (fw : TF.Framework) (self : MCE.t fw) (data : list (TF.Table string)) :
  (forall batch, In batch data ->
                 (List.length (MCE.encoding_layers self)
                  <= List.length batch)%nat) ->
  exists self' : MCE.t fw, MCE.adapt self data = Ok self'.
Proof.
  intros Hwide. unfold MCE.adapt.
  destruct (adapt_loop_succeeds fw data (MCE.encoding_layers self) 0%nat)
    as (layers' & ->).
  - intros batch Hin. simpl. now apply Hwide.
  - simpl. eexists. reflexivity.
Qed.

Lemma adapt_succeeds_on_wide_batches_witness :
  (forall batch,
      In batch [[["a"; "b"]; ["x"; "y"]; ["1"; "2"]];
                [["c"]; ["z"]]] ->
      (List.length
         (MCE.encoding_layers (MCE.__init__ Reference.framework [INT; INT]))
       <= List.length batch)%nat)
  /\ exists self' : MCE.t Reference.framework,
       MCE.adapt (MCE.__init__ Reference.framework [INT; INT])
         [[["a"; "b"]; ["x"; "y"]; ["1"; "2"]]; [["c"]; ["z"]]]
       = Ok self'.
Proof.
  assert (H : forall batch,
             In batch [[["a"; "b"]; ["x"; "y"]; ["1"; "2"]];
                       [["c"]; ["z"]]] ->
             (List.length
                (MCE.encoding_layers
                   (MCE.__init__ Reference.framework [INT; INT]))
              <= List.length batch)%nat).
  { intros batch [<- | [<- | []]]; simpl; lia. }
  split; [exact H|].
  exact (adapt_succeeds_on_wide_batches Reference.framework
           (MCE.__init__ Reference.framework [INT; INT])
           [[["a"; "b"]; ["x"; "y"]; ["1"; "2"]]; [["c"]; ["z"]]] H).
Defined.

Lemma mapM_slice_raises {A : Type} (data : list (TF.Table A)) (i : nat)
    (e : exn) :
  mapM (fun x => TF.slice_column x i) data = Raise e ->
  e = InvalidArgumentError_slice
  /\ exists batch, In batch data /\ (List.length batch <= i)%nat.
Proof.
  intros Hrun. apply mapM_raises in Hrun.
  destruct Hrun as (batch & Hin & Hb). unfold TF.slice_column in Hb.
  destruct (nth_error batch i) eqn:Hnth; [discriminate|].
  injection Hb as <-. split; [reflexivity|].
  exists batch. split; [exact Hin|]. now apply nth_error_None.
Qed.

Lemma adapt_loop_raises (fw : TF.Framework) (data : list (TF.Table string))
    (layers : list (option (TF.StringLookup fw))) :
  forall (index : nat) (e : exn),
    MCE.adapt_loop fw index layers data = Raise e ->
    e = InvalidArgumentError_slice
    /\ exists i layer batch,
         nth_error layers i = Some (Some layer)
         /\ In batch data /\ (List.length batch <= index + i)%nat.
Proof.
  induction layers as [|entry layers IH]; intros index e Hrun;
    [discriminate|].
  simpl in Hrun. destruct entry as [layer0|].
  - destruct (mapM _ data) as [data_column | e0] eqn:Hcol.
    + simpl in Hrun.
      destruct (MCE.adapt_loop fw (S index) layers data) as [rest' | e1]
        eqn:Hrest; [discriminate|].
      simpl in Hrun. injection Hrun as ->.
      destruct (IH (S index) e Hrest) as (-> & i & layer & batch & H1 & H2 & H3).
      split; [reflexivity|]. exists (S i), layer, batch.
      repeat split; try assumption. lia.
    + simpl in Hrun. injection Hrun as ->.
      destruct (mapM_slice_raises data index e Hcol) as (-> & batch & H1 & H2).
      split; [reflexivity|]. exists 0%nat, layer0, batch.
      repeat split; try assumption. lia.
  - destruct (MCE.adapt_loop fw (S index) layers data) as [rest' | e1]
      eqn:Hrest; [discriminate|].
    simpl in Hrun. injection Hrun as ->.
    destruct (IH (S index) e Hrest) as (-> & i & layer & batch & H1 & H2 & H3).
    split; [reflexivity|]. exists (S i), layer, batch.
    repeat split; try assumption. lia.
Qed.

(** X16.  [adapt] raises only the error of the slice, and only when a batch
    of the dataset has no column at the position of a lookup layer. *)
Theorem adapt_raises_only_on_missing_column
    (fw : TF.Framework) (self : MCE.t fw) (data : list (TF.Table string))
    (e : exn) :
  MCE.adapt self data = Raise e ->
  e = InvalidArgumentError_slice
  /\ exists (i : nat) (layer : TF.StringLookup fw) (batch : TF.Table string),
       nth_error (MCE.encoding_layers self) i = Some (Some layer)
       /\ In batch data /\ (List.length batch <= i)%nat.
Proof.
  unfold MCE.adapt. intros Hrun.
  destruct (MCE.adapt_loop fw 0 (MCE.encoding_layers self) data)
    as [layers' | e0] eqn:Hloop; [discriminate|].
  simpl in Hrun. injection Hrun as ->.
  exact (adapt_loop_raises fw data _ 0%nat e Hloop).
Qed.

Lemma adapt_raises_only_on_missing_column_witness :
  InvalidArgumentError_slice = InvalidArgumentError_slice
  /\ exists (i : nat) (layer : TF.StringLookup Reference.framework)
            (batch : TF.Table string),
       nth_error (MCE.encoding_layers
                    (MCE.__init__ Reference.framework [NONE; INT])) i
       = Some (Some layer)
       /\ In batch [[["1"; "2"]]] /\ (List.length batch <= i)%nat.
Proof.
  exact (adapt_raises_only_on_missing_column Reference.framework
           (MCE.__init__ Reference.framework [NONE; INT])
           [[["1"; "2"]]] InvalidArgumentError_slice eq_refl).
Defined.

Lemma adapt_loop_without_lookup (fw : TF.Framework)
    (data : list (TF.Table string))
    (layers : list (option (TF.StringLookup fw))) :
  forallb (fun layer => negb (is_lookup layer)) layers = true ->
  forall index, MCE.adapt_loop fw index layers data = Ok layers.
Proof.
  induction layers as [|entry layers IH]; intros Hnone index;
    [reflexivity|].
  simpl in Hnone. apply andb_true_iff in Hnone. destruct Hnone as (He & Hrest).
  destruct entry as [layer|]; [discriminate|].
  simpl. now rewrite IH.
Qed.

Lemma build_layers_without_lookup (fw : TF.Framework)
    (layers : list (option (TF.StringLookup fw))) :
  forallb (fun layer => negb (is_lookup layer)) layers = true ->
  map (fun encoding_layer =>
         match encoding_layer with
         | Some layer => Some (TF.StringLookup_build fw layer)
         | None => None
         end) layers = layers.
Proof.
  induction layers as [|entry layers IH]; intros Hnone; [reflexivity|].
  simpl in Hnone. apply andb_true_iff in Hnone. destruct Hnone as (He & Hrest).
  destruct entry as [layer|]; [discriminate|].
  simpl. now rewrite IH.
Qed.

(** X17.  A layer without any lookup layer, as one made from ['none'] and
    ['one-hot'] tags only, is left as it is by [build] and by [adapt],
    whatever the dataset: [adapt] does not even look at it. *)
Theorem build_and_adapt_skip_layers_without_lookup
    (fw : TF.Framework) (self : MCE.t fw) (data : list (TF.Table string)) :
  forallb (fun layer => negb (is_lookup layer)) (MCE.encoding_layers self)
  = true ->
  MCE.build self = self /\ MCE.adapt self data = Ok self.
Proof.
  intros Hnone. destruct self as [tags layers]. simpl in Hnone.
  unfold MCE.build, MCE.adapt. simpl.
  rewrite build_layers_without_lookup by assumption.
  rewrite adapt_loop_without_lookup by assumption.
  split; reflexivity.
Qed.

Lemma build_and_adapt_skip_layers_without_lookup_witness :
  MCE.build (MCE.__init__ Reference.framework [NONE; ONE_HOT])
  = MCE.__init__ Reference.framework [NONE; ONE_HOT]
  /\ MCE.adapt (MCE.__init__ Reference.framework [NONE; ONE_HOT]) [[]; [["x"]]]
     = Ok (MCE.__init__ Reference.framework [NONE; ONE_HOT]).
Proof.
  exact (build_and_adapt_skip_layers_without_lookup Reference.framework
           (MCE.__init__ Reference.framework [NONE; ONE_HOT])
           [[]; [["x"]]] eq_refl).
Defined.

Lemma build_keeps_none (fw : TF.Framework) (self : MCE.t fw) (i : nat) :
  nth_error (MCE.encoding_layers self) i = Some None ->
  nth_error (MCE.encoding_layers (MCE.build self)) i = Some None.
Proof.
  intros Hi. simpl. rewrite nth_error_map, Hi. reflexivity.
Qed.

(** X18.  Building and adapting a layer changes nothing for its numeric
    columns: on a column tagged ['none'] or ['one-hot'], [call] on the
    adapted layer returns the parsed numbers with NaN replaced by 0.0,
    as on the layer fresh from the constructor. *)
Theorem call_after_adapt_on_numeric_column
    (fw : TF.Framework) (encoding : list string) (self' : MCE.t fw)
    (data : list (TF.Table string)) (inputs : TF.Table string)
    (output : TF.Table TF.float32) (i : nat) (tag : string)
    (column : TF.Column string) :
  forallb known_tag encoding = true ->
  nth_error encoding i = Some tag ->
  tag = NONE \/ tag = ONE_HOT ->
  MCE.adapt (MCE.build (MCE.__init__ fw encoding)) data = Ok self' ->
  nth_error inputs i = Some column ->
  MCE.call self' inputs = Ok output ->
  nth_error output i = Some (map (fun s => impute (parsed fw s)) column).
Proof.
  intros Hknown Htag Hnum Hadapt Hcol Hrun.
  assert (Hlayer : nth_error (MCE.encoding_layers (MCE.__init__ fw encoding)) i
                   = Some None).
  { rewrite init_layers_known by assumption.
    rewrite nth_error_map, Htag. simpl. f_equal.
    destruct Hnum as [-> | ->]; reflexivity. }
  apply build_keeps_none in Hlayer.
  destruct (adapt_keeps_entries fw _ self' data Hadapt)
    as (Hnone & _).
  apply Hnone in Hlayer.
  exact (proj2 (call_without_lookup_returns fw self' inputs i column output
                  Hlayer Hcol Hrun)).
Qed.

Lemma call_after_adapt_on_numeric_column_witness :
  nth_error [[Reference.f32 false 8388608 (-23); TF.zero];
             [Reference.f32 false 12582912 (-23); TF.zero]] 1
  = Some (map (fun s => impute (parsed Reference.framework s)) ["1.5"; "NaN"]).
Proof.
  eapply (call_after_adapt_on_numeric_column Reference.framework
            [INT; ONE_HOT] _ [[["a"]; ["7"]]] [["a"; "b"]; ["1.5"; "NaN"]]
            _ 1%nat ONE_HOT ["1.5"; "NaN"]).
  - reflexivity.
  - reflexivity.
  - now right.
  - reflexivity.
  - reflexivity.
  - vm_compute. reflexivity.
Defined.

(* ===================================================================== *)
(** * Statements on MultiCategoryEncoding *)
(* ===================================================================== *)

(** C8.  [call] splits its input into as many columns as the layer has
    tags.  The split raises, and [call] with it, exactly when the input
    has another number of columns or the layer has no tag at all: with
    an empty list of tags [tf.split] is given no size and raises even
    on an input of zero columns, where the two counts agree.  With at
    least one tag and equal counts that error cannot occur.  Three
    columns against two tags raise. *)
Theorem call_raises_split_error_iff_count_mismatch_or_no_tag
    (fw : TF.Framework) (self : MCE.t fw) (inputs : TF.Table string) :
  (MCE.call self inputs = Raise InvalidArgumentError_split
   <-> Py.len inputs <> Py.len (MCE.encoding self)
       \/ MCE.encoding self = [])
  /\ (forall (tag1 tag2 : string) (c1 c2 c3 : TF.Column string),
        MCE.call (MCE.__init__ fw [tag1; tag2]) [c1; c2; c3]
        = Raise InvalidArgumentError_split).
Proof.
  split; [|reflexivity].
  rewrite call_unfold.
  destruct (MCE.encoding self) as [|tag tags] eqn:Henc.
  - split; [intros _; now right | reflexivity].
  - destruct (Py.len inputs =? Py.len (tag :: tags)) eqn:Hlen.
    + apply Z.eqb_eq in Hlen. split.
      * intros Hrun. exfalso.
        destruct (mapM _ _) as [[|node output] | e] eqn:Hloop;
          try discriminate.
        injection Hrun as ->. apply mapM_raises in Hloop.
        destruct Hloop as (p & _ & Hp).
        apply call_column_raises in Hp.
        destruct Hp as [(_ & s & _ & _ & He) | (He & _)]; discriminate.
      * intros [Hne | Hnil]; [contradiction | discriminate].
    + apply Z.eqb_neq in Hlen. split; [intros _; now left | reflexivity].
Qed.

(** C8 fails on a layer without tags: the input has zero columns, as
    many as the layer has tags, and [call] raises the error of the
    split all the same. *)
Lemma call_empty_encoding_counterexample :
  let layer := MCE.__init__ Reference.framework [] in
  let inputs : TF.Table string := [] in
  Py.len inputs = Py.len (MCE.encoding layer)
  /\ MCE.call layer inputs = Raise InvalidArgumentError_split.
Proof.
  split; reflexivity.
Qed.

(** A layer as [call] meets it: fresh from the constructor, or built
    and adapted.  On recognised tags it has the tags it was given, and
    no lookup layer at the position of a tag other than ['int']. *)
Lemma numeric_entry_stays_none
    (fw : TF.Framework) (encoding : list string) (self : MCE.t fw)
    (i : nat) (tag : string) :
  forallb known_tag encoding = true ->
  self = MCE.__init__ fw encoding
  \/ (exists data : list (TF.Table string),
        MCE.adapt (MCE.build (MCE.__init__ fw encoding)) data = Ok self) ->
  nth_error encoding i = Some tag ->
  tag = NONE \/ tag = ONE_HOT ->
  MCE.encoding self = encoding
  /\ nth_error (MCE.encoding_layers self) i = Some None.
Proof.
  intros Hknown Hself Htag Hnum.
  assert (Hlayer : nth_error (MCE.encoding_layers (MCE.__init__ fw encoding)) i
                   = Some None).
  { rewrite init_layers_known by assumption.
    rewrite nth_error_map, Htag. simpl. f_equal.
    destruct Hnum as [-> | ->]; reflexivity. }
  destruct Hself as [-> | (data & Hadapt)].
  - split; [reflexivity | exact Hlayer].
  - apply build_keeps_none in Hlayer.
    destruct (adapt_keeps_entries fw _ self data Hadapt)
      as (Hnone & Henc & _).
    split; [exact Henc | now apply Hnone].
Qed.

(** [build] and [adapt] read the entries of the layer, not its tags. *)
Lemma build_reads_layers (fw : TF.Framework) (self other : MCE.t fw) :
  MCE.encoding_layers self = MCE.encoding_layers other ->
  MCE.build self
  = MCE.Build_t fw (MCE.encoding self)
      (MCE.encoding_layers (MCE.build other)).
Proof.
  intros Hlayers. unfold MCE.build. simpl. now rewrite Hlayers.
Qed.

Lemma adapt_reads_layers (fw : TF.Framework) (self other : MCE.t fw)
    (data : list (TF.Table string)) :
  MCE.encoding_layers self = MCE.encoding_layers other ->
  MCE.adapt self data
  = (adapted <- MCE.adapt other data ;;
     Ok (MCE.Build_t fw (MCE.encoding self) (MCE.encoding_layers adapted))).
Proof.
  intros Hlayers. unfold MCE.adapt. rewrite Hlayers.
  destruct (MCE.adapt_loop fw 0 (MCE.encoding_layers other) data);
    reflexivity.
Qed.

(** C1, as the code has it.  The constructor accepts the tag
    ['one-hot'] and gives it what it gives ['none'], no lookup layer.
    The layers built from a list of tags are those built from the list
    with every ['one-hot'] read as ['none']; [build], [adapt] and
    [call] do on the one layer what they do on the other, up to the
    list of tags the layer keeps.  When every tag of the list is
    recognised, the entry at the position of a ['one-hot'] tag is
    [None] on the fresh layer and still [None] after [build] and
    [adapt], and whenever [call] returns, the column at that position
    is the column of the parsed numbers with NaN replaced by 0.0. *)
Theorem one_hot_is_encoded_as_none
    (fw : TF.Framework) (encoding : list string) :
  MCE.encoding_layers (MCE.__init__ fw encoding)
  = MCE.encoding_layers (MCE.__init__ fw (map one_hot_as_none encoding))
  /\ MCE.encoding_layers (MCE.__init__ fw [ONE_HOT]) = [None]
  /\ MCE.build (MCE.__init__ fw encoding)
     = MCE.Build_t fw encoding
         (MCE.encoding_layers
            (MCE.build (MCE.__init__ fw (map one_hot_as_none encoding))))
  /\ (forall data : list (TF.Table string),
        MCE.adapt (MCE.build (MCE.__init__ fw encoding)) data
        = (adapted <-
             MCE.adapt
               (MCE.build (MCE.__init__ fw (map one_hot_as_none encoding)))
               data ;;
           Ok (MCE.Build_t fw encoding (MCE.encoding_layers adapted))))
  /\ (forall inputs : TF.Table string,
        MCE.call (MCE.__init__ fw encoding) inputs
        = MCE.call (MCE.__init__ fw (map one_hot_as_none encoding)) inputs)
  /\ (forall (data : list (TF.Table string)) (self self' : MCE.t fw)
             (inputs : TF.Table string),
        MCE.adapt (MCE.build (MCE.__init__ fw encoding)) data = Ok self ->
        MCE.adapt
          (MCE.build (MCE.__init__ fw (map one_hot_as_none encoding))) data
        = Ok self' ->
        MCE.call self inputs = MCE.call self' inputs)
  /\ (forall column : TF.Column string,
        MCE.call (MCE.__init__ fw [ONE_HOT]) [column]
        = MCE.call (MCE.__init__ fw [NONE]) [column])
  /\ (forallb known_tag encoding = true ->
      forall (self : MCE.t fw) (i : nat),
        self = MCE.__init__ fw encoding
        \/ (exists data : list (TF.Table string),
              MCE.adapt (MCE.build (MCE.__init__ fw encoding)) data
              = Ok self) ->
        nth_error encoding i = Some ONE_HOT ->
        nth_error (MCE.encoding_layers self) i = Some None
        /\ forall (inputs : TF.Table string) (column : TF.Column string)
                  (output : TF.Table TF.float32),
             nth_error inputs i = Some column ->
             MCE.call self inputs = Ok output ->
             (forall s, In s column -> accepted fw s = true)
             /\ nth_error output i
                = Some (map (fun s => impute (parsed fw s)) column)).
Proof.
  assert (Hlayers :
            MCE.encoding_layers (MCE.__init__ fw encoding)
            = MCE.encoding_layers
                (MCE.__init__ fw (map one_hot_as_none encoding))).
  { simpl. symmetry. apply init_loop_one_hot_as_none. }
  assert (Hbuild :
            MCE.build (MCE.__init__ fw encoding)
            = MCE.Build_t fw encoding
                (MCE.encoding_layers
                   (MCE.build
                      (MCE.__init__ fw (map one_hot_as_none encoding))))).
  { exact (build_reads_layers fw _ _ Hlayers). }
  assert (Hadapt :
            forall data : list (TF.Table string),
              MCE.adapt (MCE.build (MCE.__init__ fw encoding)) data
              = (adapted <-
                   MCE.adapt
                     (MCE.build
                        (MCE.__init__ fw (map one_hot_as_none encoding)))
                     data ;;
                 Ok (MCE.Build_t fw encoding (MCE.encoding_layers adapted)))).
  { intros data.
    rewrite (adapt_reads_layers fw (MCE.build (MCE.__init__ fw encoding))
               (MCE.build (MCE.__init__ fw (map one_hot_as_none encoding)))
               data); [reflexivity|].
    now rewrite Hbuild. }
  split; [exact Hlayers|]. split; [reflexivity|].
  split; [exact Hbuild|]. split; [exact Hadapt|].
  split; [|split; [|split]].
  - intros inputs. unfold MCE.call. rewrite Hlayers. simpl MCE.encoding.
    now rewrite len_map.
  - intros data self self' inputs Hself Hself'.
    pose proof (Hadapt data) as Heq. rewrite Hself, Hself' in Heq.
    cbn [bind] in Heq. injection Heq as ->.
    destruct (adapt_keeps_entries fw _ self' data Hself') as (_ & Henc & _).
    cbn [MCE.build MCE.__init__ MCE.encoding] in Henc.
    unfold MCE.call. cbn [MCE.encoding MCE.encoding_layers].
    rewrite Henc. now rewrite len_map.
  - reflexivity.
  - intros Hknown self i Hself Htag.
    destruct (numeric_entry_stays_none fw encoding self i ONE_HOT
                Hknown Hself Htag (or_intror eq_refl)) as (_ & Hlayer).
    split; [exact Hlayer|].
    intros inputs column output Hcol Hrun.
    exact (call_without_lookup_returns fw self inputs i column output
             Hlayer Hcol Hrun).
Qed.

Lemma one_hot_is_encoded_as_none_witness :
  forallb known_tag [INT; ONE_HOT] = true
  /\ nth_error
       (MCE.encoding_layers
          (MCE.Build_t Reference.framework [INT; ONE_HOT]
             [Some (Some ["a"]); None])) 1
     = Some None
  /\ nth_error [[Reference.f32 false 8388608 (-23); TF.zero];
                [Reference.f32 false 12582912 (-23); TF.zero]] 1
     = Some (map (fun s => impute (parsed Reference.framework s))
               ["1.5"; "NaN"]).
Proof.
  assert (Hknown : forallb known_tag [INT; ONE_HOT] = true) by reflexivity.
  split; [exact Hknown|].
  destruct (proj2 (proj2 (proj2 (proj2 (proj2 (proj2 (proj2
              (one_hot_is_encoded_as_none Reference.framework
                 [INT; ONE_HOT])))))))
              Hknown
              (MCE.Build_t Reference.framework [INT; ONE_HOT]
                 [Some (Some ["a"]); None])
              1%nat
              (or_intror (ex_intro _ [[["a"]; ["7"]]] eq_refl))
              eq_refl) as (Hlayer & Hcall).
  split; [exact Hlayer|].
  exact (proj2 (Hcall [["a"; "b"]; ["1.5"; "NaN"]] ["1.5"; "NaN"]
                  [[Reference.f32 false 8388608 (-23); TF.zero];
                   [Reference.f32 false 12582912 (-23); TF.zero]]
                  eq_refl eq_refl)).
Defined.

(** C1 fails: a layer made with the tag ['one-hot'] is constructed,
    adapted and called without any error, and its column comes out as
    the column of a layer made with ['none'] does. *)
Lemma one_hot_silently_degrades_counterexample :
  let layer := MCE.__init__ Reference.framework [ONE_HOT] in
  In ONE_HOT (MCE.encoding layer)
  /\ MCE.encoding_layers layer = [None]
  /\ MCE.adapt layer [[["1.5"; "NaN"]]] = Ok layer
  /\ MCE.call layer [["1.5"; "NaN"]]
     = Ok [[Reference.f32 false 12582912 (-23); TF.zero]]
  /\ MCE.call layer [["1.5"; "NaN"]]
     = MCE.call (MCE.__init__ Reference.framework [NONE]) [["1.5"; "NaN"]].
Proof.
  repeat split; try reflexivity. now left.
Qed.

(** The layer with the single tag ['none'], on a single column. *)
Lemma call_none_single_column
    (fw : TF.Framework) (column : TF.Column string) :
  ((forall s, In s column -> accepted fw s = true) ->
   MCE.call (MCE.__init__ fw [NONE]) [column]
   = Ok [map (fun s => impute (parsed fw s)) column])
  /\ (forall s, In s column -> accepted fw s = false ->
      exists s' : string,
        In s' column /\ accepted fw s' = false
        /\ MCE.call (MCE.__init__ fw [NONE]) [column]
           = Raise (InvalidArgumentError_to_number s')).
Proof.
  rewrite (call_single_column fw NONE None column eq_refl).
  rewrite call_column_none.
  split.
  - intros Hall. rewrite to_number_accepted by assumption. simpl.
    now rewrite map_map.
  - intros s Hin Hrej.
    destruct (to_number_rejected fw column s Hin Hrej)
      as (s' & Hin' & Hrej' & Hrun).
    exists s'. rewrite Hrun. auto.
Qed.

(** [call] returns when the counts agree, the parser accepts every
    string of every column without lookup layer, and every lookup layer
    can be called. *)
Lemma call_returns_on_accepted_columns
    (fw : TF.Framework) (self : MCE.t fw) (inputs : TF.Table string) :
  MCE.encoding_layers self <> [] ->
  MCE.encoding self <> [] ->
  List.length inputs = List.length (MCE.encoding self) ->
  (forall (j : nat) (c : TF.Column string),
     nth_error (MCE.encoding_layers self) j = Some None ->
     nth_error inputs j = Some c ->
     forall s, In s c -> accepted fw s = true) ->
  (forall layer : TF.StringLookup fw,
     In (Some layer) (MCE.encoding_layers self) ->
     exists index : string -> Z, TF.StringLookup_call fw layer = Some index) ->
  exists output : TF.Table TF.float32, MCE.call self inputs = Ok output.
Proof.
  intros Hlayers Hne Hcount Haccepted Hcallable.
  pose (made := fun p : TF.Column string * option (TF.StringLookup fw) =>
                  match snd p with
                  | Some layer =>
                      match TF.StringLookup_call fw layer with
                      | Some index =>
                          map (fun s => TF.cast_float32 (index s)) (fst p)
                      | None => []
                      end
                  | None => map (fun s => impute (parsed fw s)) (fst p)
                  end).
  assert (Hloop :
            mapM (fun p : TF.Column string * option (TF.StringLookup fw) =>
                    MCE.call_column (fst p) (snd p))
                 (combine inputs (MCE.encoding_layers self))
            = Ok (map made (combine inputs (MCE.encoding_layers self)))).
  { apply mapM_total. intros [c entry] Hin. cbn [fst snd].
    destruct entry as [layer|].
    - destruct (Hcallable layer (in_combine_r _ _ _ _ Hin))
        as (index & Hcall).
      rewrite call_column_lookup, Hcall. unfold made. cbn [fst snd].
      now rewrite Hcall.
    - apply In_nth_error in Hin. destruct Hin as (j & Hj).
      apply nth_error_combine_inv in Hj. destruct Hj as (Hc & Hentry).
      rewrite call_column_none.
      rewrite to_number_accepted by exact (Haccepted j c Hentry Hc).
      unfold made. cbn [fst snd]. simpl. now rewrite map_map. }
  exists (map made (combine inputs (MCE.encoding_layers self))).
  rewrite call_unfold, Hloop.
  destruct (MCE.encoding self) as [|tag tags] eqn:Henc;
    [now contradiction Hne|].
  replace (Py.len inputs =? Py.len (tag :: tags)) with true
    by (symmetry; apply Z.eqb_eq; unfold Py.len; now rewrite Hcount).
  destruct inputs as [|c inputs]; [discriminate|].
  destruct (MCE.encoding_layers self); [now contradiction Hlayers|].
  reflexivity.
Qed.

(** C2, as the code has it.  The layer is one whose tags are all
    recognised, fresh from the constructor or built and adapted, and
    the column is at the position of a tag ['none'].  The transform
    parses each string of the column with [tf.strings.to_number] and
    replaces the values that are NaN by 0.0, leaving every other number
    as parsed: whenever [call] returns, the column of the result is the
    column of the imputed numbers.  A string the parser rejects is not
    replaced by 0.0: [call] raises.  And [call] does return when the
    input has as many columns as the layer has tags, the parser accepts
    every string of every column without lookup layer, and every lookup
    layer can be called; on the layer with the single tag ['none'] the
    error raised is the one of the parser. *)
Theorem none_column_replaces_nan_only
    (fw : TF.Framework) (encoding : list string) (self : MCE.t fw)
    (inputs : TF.Table string) (i : nat) (column : TF.Column string) :
  forallb known_tag encoding = true ->
  self = MCE.__init__ fw encoding
  \/ (exists data : list (TF.Table string),
        MCE.adapt (MCE.build (MCE.__init__ fw encoding)) data = Ok self) ->
  nth_error encoding i = Some NONE ->
  nth_error inputs i = Some column ->
  (forall output : TF.Table TF.float32,
     MCE.call self inputs = Ok output ->
     (forall s, In s column -> accepted fw s = true)
     /\ nth_error output i
        = Some (map (fun s => if TF.is_nan (parsed fw s) then TF.zero
                              else parsed fw s) column))
  /\ (forall s, In s column -> accepted fw s = false ->
      exists e : exn, MCE.call self inputs = Raise e)
  /\ (List.length inputs = List.length encoding ->
      (forall (j : nat) (c : TF.Column string),
         nth_error (MCE.encoding_layers self) j = Some None ->
         nth_error inputs j = Some c ->
         forall s, In s c -> accepted fw s = true) ->
      (forall layer : TF.StringLookup fw,
         In (Some layer) (MCE.encoding_layers self) ->
         exists index : string -> Z,
           TF.StringLookup_call fw layer = Some index) ->
      exists output : TF.Table TF.float32, MCE.call self inputs = Ok output)
  /\ ((forall s, In s column -> accepted fw s = true) ->
      MCE.call (MCE.__init__ fw [NONE]) [column]
      = Ok [map (fun s => if TF.is_nan (parsed fw s) then TF.zero
                          else parsed fw s) column])
  /\ (forall s, In s column -> accepted fw s = false ->
      exists s' : string,
        In s' column /\ accepted fw s' = false
        /\ MCE.call (MCE.__init__ fw [NONE]) [column]
           = Raise (InvalidArgumentError_to_number s')).
Proof.
  intros Hknown Hself Htag Hcol.
  destruct (numeric_entry_stays_none fw encoding self i NONE
              Hknown Hself Htag (or_introl eq_refl)) as (Henc & Hlayer).
  assert (Hreturns : forall output,
             MCE.call self inputs = Ok output ->
             (forall s, In s column -> accepted fw s = true)
             /\ nth_error output i
                = Some (map (fun s => impute (parsed fw s)) column)).
  { intros output Hrun.
    exact (call_without_lookup_returns fw self inputs i column output
             Hlayer Hcol Hrun). }
  split; [exact Hreturns|]. split; [|split].
  - intros s Hin Hrej.
    destruct (MCE.call self inputs) as [output | e] eqn:Hrun.
    + destruct (Hreturns output eq_refl) as (Hall & _).
      rewrite (Hall s Hin) in Hrej. discriminate.
    + now exists e.
  - intros Hcount Haccepted Hcallable.
    apply call_returns_on_accepted_columns.
    + intros Hnil. rewrite Hnil in Hlayer. destruct i; discriminate.
    + rewrite Henc. intros Hnil. rewrite Hnil in Htag.
      destruct i; discriminate.
    + now rewrite Henc.
    + exact Haccepted.
    + exact Hcallable.
  - exact (call_none_single_column fw column).
Qed.

Lemma none_column_replaces_nan_only_witness :
  let self := MCE.Build_t Reference.framework [INT; NONE]
                [Some (Some ["a"]); None] in
  let inputs := [["a"; "b"]; ["1.5"; "NaN"]] in
  forallb known_tag [INT; NONE] = true
  /\ MCE.adapt (MCE.build (MCE.__init__ Reference.framework [INT; NONE]))
       [[["a"]; ["7"]]]
     = Ok self
  /\ (exists output : TF.Table TF.float32,
        MCE.call self inputs = Ok output)
  /\ (forall output : TF.Table TF.float32,
        MCE.call self inputs = Ok output ->
        nth_error output 1
        = Some [Reference.f32 false 12582912 (-23); TF.zero])
  /\ MCE.call (MCE.__init__ Reference.framework [NONE]) [["1.5"; "NaN"]]
     = Ok [[Reference.f32 false 12582912 (-23); TF.zero]].
Proof.
  intros self inputs.
  assert (Hknown : forallb known_tag [INT; NONE] = true) by reflexivity.
  assert (Hadapt :
            MCE.adapt
              (MCE.build (MCE.__init__ Reference.framework [INT; NONE]))
              [[["a"]; ["7"]]]
            = Ok self) by reflexivity.
  assert (Haccepted : forall s, In s ["1.5"; "NaN"] ->
                                accepted Reference.framework s = true).
  { intros s [<- | [<- | []]]; reflexivity. }
  destruct (none_column_replaces_nan_only Reference.framework [INT; NONE]
              self inputs 1%nat ["1.5"; "NaN"] Hknown
              (or_intror (ex_intro _ [[["a"]; ["7"]]] Hadapt))
              eq_refl eq_refl)
    as (Hreturns & _ & Hruns & Hsingle & _).
  split; [exact Hknown|]. split; [exact Hadapt|].
  split; [|split].
  - apply Hruns.
    + reflexivity.
    + intros [|[|j]] c Hentry Hc; try discriminate.
      * injection Hc as <-. exact Haccepted.
      * destruct j; discriminate.
    + intros layer [Hin | [Hin | []]]; [|discriminate].
      injection Hin as <-. eexists. reflexivity.
  - intros output Hrun. exact (proj2 (Hreturns output Hrun)).
  - exact (Hsingle Haccepted).
Defined.

(** C2 fails: on the column ["1.5"; "NaN"; "abc"] the parser rejects
    ["abc"], and [call] raises instead of returning [1.5; 0.0; 0.0]. *)
Lemma none_column_malformed_counterexample :
  MCE.call (MCE.__init__ Reference.framework [NONE]) [["1.5"; "NaN"; "abc"]]
  = Raise (InvalidArgumentError_to_number "abc")
  /\ MCE.call (MCE.__init__ Reference.framework [NONE])
       [["1.5"; "NaN"; "abc"]]
     <> Ok [[Reference.f32 false 12582912 (-23); TF.zero; TF.zero]].
Proof.
  split; [reflexivity | discriminate].
Qed.

(* ===================================================================== *)
(** * Facts about dictionaries *)
(* ===================================================================== *)

Lemma get_set_same (d : Dict.dict) (k : string) (v : Dict.pyval) :
  Dict.get (Dict.set d k v) k = Some v.
Proof.
  induction d as [|[k' v'] d IH]; simpl.
  - now rewrite String.eqb_refl.
  - destruct (String.eqb k k') eqn:Hk; simpl; rewrite Hk; [reflexivity|].
    exact IH.
Qed.

Lemma get_set_other (d : Dict.dict) (k k' : string) (v : Dict.pyval) :
  String.eqb k' k = false ->
  Dict.get (Dict.set d k v) k' = Dict.get d k'.
Proof.
  intros Hne. induction d as [|[k0 v0] d IH]; simpl.
  - now rewrite Hne.
  - destruct (String.eqb k k0) eqn:Hk; simpl.
    + apply String.eqb_eq in Hk. subst k0. now rewrite Hne.
    + destruct (String.eqb k' k0); [reflexivity | exact IH].
Qed.

Lemma update_snoc (d : Dict.dict) (other : list (string * Dict.pyval))
    (k : string) (v : Dict.pyval) :
  Dict.update d (other ++ [(k, v)]) = Dict.set (Dict.update d other) k v.
Proof. unfold Dict.update. now rewrite fold_left_app. Qed.

Lemma set_fresh (d : Dict.dict) (k : string) (v : Dict.pyval) :
  ~ In k (map fst d) -> Dict.set d k v = d ++ [(k, v)].
Proof.
  induction d as [|[k' v'] d IH]; intros Hfresh; simpl; [reflexivity|].
  simpl in Hfresh.
  destruct (String.eqb k k') eqn:Hk.
  - apply String.eqb_eq in Hk. subst k'. exfalso. apply Hfresh. now left.
  - rewrite IH; [reflexivity|]. intros Hin. apply Hfresh. now right.
Qed.

(** Updating with items whose keys are new and distinct appends them. *)
Lemma update_fresh (other : list (string * Dict.pyval)) :
  forall d : Dict.dict,
    NoDup (map fst (d ++ other)) -> Dict.update d other = d ++ other.
Proof.
  induction other as [|[k v] other IH]; intros d Hnd; simpl.
  - now rewrite app_nil_r.
  - unfold Dict.update in *. simpl.
    rewrite map_app in Hnd. simpl in Hnd.
    pose proof (NoDup_remove_2 _ _ _ Hnd) as Hfresh.
    rewrite set_fresh.
    + rewrite IH.
      * now rewrite <- app_assoc.
      * rewrite <- app_assoc. simpl. now rewrite map_app.
    + intros Hin. apply Hfresh. apply in_or_app. now left.
Qed.

(** [dict(list(d.items()))] is [d] again. *)
Lemma of_items_dict (d : Dict.dict) :
  NoDup (map fst d) -> Dict.of_items (Dict.items d) = d.
Proof. intros Hnd. unfold Dict.of_items, Dict.items. now rewrite update_fresh. Qed.

Lemma strings_of_strings (l : list string) :
  strings_of (Dict.PList (map Dict.PStr l)) = Some l.
Proof.
  simpl. induction l as [|s l IH]; simpl; [reflexivity | now rewrite IH].
Qed.

(* ===================================================================== *)
(** * MultiCategoryEncoding.get_config *)
(* ===================================================================== *)

Lemma get_config_encoding_entry
    (fw : TF.Framework) (base_config : Dict.dict) (self : MCE.t fw) :
  Dict.get (MCE.get_config base_config self) "encoding"
  = Some (Dict.PList (map Dict.PStr (MCE.encoding self)))
  /\ MCE.get_config base_config self
     = Dict.set (Dict.of_items base_config) "encoding"
         (Dict.PList (map Dict.PStr (MCE.encoding self))).
Proof.
  unfold MCE.get_config, Dict.of_items, Dict.items.
  rewrite update_snoc. split; [apply get_set_same | reflexivity].
Qed.

(** X19.  The configuration holds the tags under ["encoding"], in place of
    whatever the base configuration had there, and every other entry
    of the base configuration as it was. *)
Theorem get_config_carries_encoding
    (fw : TF.Framework) (base_config : Dict.dict) (self : MCE.t fw) :
  Dict.get (MCE.get_config base_config self) "encoding"
  = Some (Dict.PList (map Dict.PStr (MCE.encoding self)))
  /\ (forall k : string,
        NoDup (map fst base_config) ->
        String.eqb k "encoding" = false ->
        Dict.get (MCE.get_config base_config self) k
        = Dict.get base_config k).
Proof.
  unfold MCE.get_config, Dict.of_items, Dict.items.
  rewrite update_snoc. split.
  - apply get_set_same.
  - intros k Hnd Hk. rewrite get_set_other by assumption.
    now rewrite update_fresh.
Qed.

Lemma build_keeps_pattern (fw : TF.Framework) (self : MCE.t fw) :
  MCE.encoding (MCE.build self) = MCE.encoding self
  /\ map is_lookup (MCE.encoding_layers (MCE.build self))
     = map is_lookup (MCE.encoding_layers self).
Proof.
  split; [reflexivity|]. simpl. rewrite map_map. apply map_ext.
  now intros [layer|].
Qed.

(** X20.  Round trip of the configuration: the tags read back from the
    configuration of a built and adapted layer are the tags it was
    constructed with, and the constructor makes from them a layer with
    lookup layers at the same positions. *)
Theorem init_from_config_rebuilds_layer
    (fw : TF.Framework) (encoding : list string) (self' : MCE.t fw)
    (data : list (TF.Table string)) (base_config : Dict.dict) :
  MCE.adapt (MCE.build (MCE.__init__ fw encoding)) data = Ok self' ->
  exists (v : Dict.pyval) (tags : list string),
    Dict.get (MCE.get_config base_config self') "encoding" = Some v
    /\ strings_of v = Some tags
    /\ tags = encoding
    /\ MCE.encoding (MCE.__init__ fw tags) = MCE.encoding self'
    /\ map is_lookup (MCE.encoding_layers (MCE.__init__ fw tags))
       = map is_lookup (MCE.encoding_layers self').
Proof.
  intros Hadapt.
  destruct (adapt_keeps_entries fw _ self' data Hadapt)
    as (_ & Henc & Hpat).
  destruct (build_keeps_pattern fw (MCE.__init__ fw encoding))
    as (Henc0 & Hpat0).
  rewrite Henc0 in Henc. rewrite Hpat0 in Hpat. simpl MCE.encoding in Henc.
  exists (Dict.PList (map Dict.PStr encoding)), encoding.
  split; [|split; [apply strings_of_strings | split; [reflexivity|]]].
  - rewrite <- Henc.
    apply (proj1 (get_config_encoding_entry fw base_config self')).
  - split; [simpl; now rewrite Henc | now rewrite Hpat].
Qed.

Lemma init_from_config_rebuilds_layer_witness :
  exists (self' : MCE.t Reference.framework) (v : Dict.pyval)
         (tags : list string),
    MCE.adapt (MCE.build (MCE.__init__ Reference.framework [INT; NONE]))
      [[["a"; "b"]; ["1"; "2"]]] = Ok self'
    /\ Dict.get (MCE.get_config [("name", Dict.PStr "layer")] self')
         "encoding" = Some v
    /\ strings_of v = Some tags
    /\ tags = [INT; NONE].
Proof.
  eexists.
  destruct (init_from_config_rebuilds_layer Reference.framework [INT; NONE]
              _ [[["a"; "b"]; ["1"; "2"]]] [("name", Dict.PStr "layer")]
              eq_refl) as (v & tags & Hget & Hdec & Htags & _).
  exists v, tags. repeat split; assumption.
Defined.

(* ===================================================================== *)
(** * More on the input nodes *)
(* ===================================================================== *)

(** X21.  [build] raises exactly on a node whose shape is still [None]
    or whose shape, as [build] leaves it, has a negative dimension:
    [len(None)] is a [TypeError] in [TimeseriesInput], and in the other
    classes [tf.keras.Input] refuses the missing shape; a negative
    dimension is refused by [tf.keras.Input] in every class. *)
Theorem build_raises_iff_shape_missing_or_negative (self : Nodes.Node) :
  ((exists e : exn, fst (Nodes.build self) = Raise e)
   <-> Nodes.shape self = None
       \/ exists sh : Nodes.Shape,
            Nodes.shape (snd (Nodes.build self)) = Some sh
            /\ forallb Nodes.dim_ok sh = false)
  /\ (Nodes.shape self = None ->
      fst (Nodes.build self)
      = Raise (if is_timeseries self then TypeError_len
               else ValueError_Input))
  /\ (forall sh : Nodes.Shape,
        Nodes.shape (snd (Nodes.build self)) = Some sh ->
        forallb Nodes.dim_ok sh = false ->
        fst (Nodes.build self) = Raise ValueError_dimension).
Proof.
  assert (Hnone : Nodes.shape self = None ->
                  fst (Nodes.build self)
                  = Raise (if is_timeseries self then TypeError_len
                           else ValueError_Input)).
  { rewrite build_cases. destruct self as [shape0 fields0]. simpl.
    intros ->. destruct fields0; reflexivity. }
  assert (Hneg : forall sh : Nodes.Shape,
             Nodes.shape (snd (Nodes.build self)) = Some sh ->
             forallb Nodes.dim_ok sh = false ->
             fst (Nodes.build self) = Raise ValueError_dimension).
  { intros sh Hsh Hbad.
    destruct (build_outcome self) as [(dt & ->) | (Hn & _ & _)].
    - rewrite Hsh. now apply keras_Input_refuses.
    - rewrite Hn in Hsh. discriminate. }
  split; [|split; assumption]. split.
  - intros (e & He).
    destruct (Nodes.shape self) as [sh0|] eqn:Hsh0; [|now left]. right.
    destruct (build_outcome self) as [(dt & Hout) | (_ & Hn & _)];
      [|rewrite Hn in Hsh0; discriminate].
    rewrite Hout in He.
    destruct (Nodes.shape (snd (Nodes.build self))) as [sh|] eqn:Hsh.
    + exists sh. split; [reflexivity|].
      destruct (forallb Nodes.dim_ok sh) eqn:Hok; [|reflexivity].
      rewrite keras_Input_accepts in He by assumption. discriminate.
    + destruct (build_frame self) as (_ & [Heq | (l & n & t & d & _ & _ & Hd)]
                                      & _).
      * rewrite Hsh, Hsh0 in Heq. discriminate.
      * rewrite Hsh in Hd. discriminate.
  - intros [Hn | (sh & Hsh & Hbad)].
    + eexists. now apply Hnone.
    + eexists. now apply (Hneg sh).
Qed.

Lemma build_raises_iff_shape_missing_or_negative_witness :
  fst (Nodes.build (Nodes.TimeseriesInput__init__ (Some 3) None None None))
  = Raise TypeError_len
  /\ fst (Nodes.build (Nodes.ImageInput__init__ None))
     = Raise ValueError_Input
  /\ fst (Nodes.build
            (Nodes.TimeseriesInput__init__ (Some (-1)) None None
               (Some [Some 7])))
     = Raise ValueError_dimension.
Proof.
  split; [|split].
  - exact (proj1 (proj2 (build_raises_iff_shape_missing_or_negative
                           (Nodes.TimeseriesInput__init__
                              (Some 3) None None None))) eq_refl).
  - exact (proj1 (proj2 (build_raises_iff_shape_missing_or_negative
                           (Nodes.ImageInput__init__ None))) eq_refl).
  - exact (proj2 (proj2 (build_raises_iff_shape_missing_or_negative
                           (Nodes.TimeseriesInput__init__
                              (Some (-1)) None None (Some [Some 7]))))
                 [Some (-1); Some 7] eq_refl eq_refl).
Defined.

(** X22.  The input [build] returns has the shape the node is left with and
    the element type of the class: strings for [TextInput] and
    [StructuredDataInput], float32 for the others.  The node is changed
    exactly when it is a [TimeseriesInput] with a shape of one
    dimension. *)
Theorem build_input_matches_node
    (self self' : Nodes.Node) (i : Nodes.KerasInput) :
  Nodes.build self = (Ok i, self') ->
  Nodes.shape self' = Some (Nodes.input_shape i)
  /\ Nodes.input_dtype i = build_dtype self
  /\ (self' <> self
      <-> is_timeseries self = true
          /\ exists d : Nodes.Dim, Nodes.shape self = Some [d]).
Proof.
  assert (Hinput : forall (sh : option Nodes.Shape) (dt : Nodes.dtype),
             Nodes.keras_Input sh dt = Ok i ->
             sh = Some (Nodes.input_shape i) /\ Nodes.input_dtype i = dt).
  { intros [sh|] dt; simpl; [|discriminate].
    destruct (forallb Nodes.dim_ok sh); [|discriminate].
    intros H. injection H as <-. auto. }
  intros H.
  assert (Hi : fst (Nodes.build self) = Ok i) by now rewrite H.
  assert (Hself : snd (Nodes.build self) = self') by now rewrite H.
  clear H. subst self'. revert Hi. rewrite build_cases.
  destruct self as [shape0 fields0].
  destruct fields0 as [| c | | n t | l n t];
    try (cbn -[Nodes.keras_Input]; intros Hi;
         destruct (Hinput _ _ Hi) as (Hsh & Hdt);
         split; [exact Hsh|]; split; [exact Hdt|]; split;
         [intros Hne; now contradiction Hne
         |intros (Hts & _); discriminate]).
  destruct shape0 as [[|d [|d' sh']]|]; cbn -[Nodes.keras_Input];
    intros Hi; try discriminate;
    destruct (Hinput _ _ Hi) as (Hsh & Hdt);
    (split; [exact Hsh|]; split; [exact Hdt|]; split).
  - intros Hne. now contradiction Hne.
  - intros (_ & d & Hd). discriminate.
  - intros _. split; [reflexivity | now exists d].
  - intros _. discriminate.
  - intros Hne. now contradiction Hne.
  - intros (_ & d0 & Hd). discriminate.
Qed.

Lemma build_input_matches_node_witness :
  exists (i : Nodes.KerasInput) (self' : Nodes.Node),
    Nodes.build (Nodes.StructuredDataInput__init__
                   (Some ["age"]) None (Some [Some 3]))
    = (Ok i, self')
    /\ Nodes.shape self' = Some (Nodes.input_shape i)
    /\ Nodes.input_dtype i = Nodes.tf_string.
Proof.
  do 2 eexists. split; [reflexivity|].
  destruct (build_input_matches_node
              (Nodes.StructuredDataInput__init__
                 (Some ["age"]) None (Some [Some 3])) _ _ eq_refl)
    as (Hshape & Hdtype & _).
  split; [exact Hshape | exact Hdtype].
Defined.

(** X23.  After the analysis, an image node asks for the added dimension
    exactly when the analyser found no channel dimension, whatever the
    node held before; a fresh image node asks for it; the nodes of the
    other classes never ask for any preprocessing. *)
Theorem image_adds_dimension_iff_no_channel
    (self : Nodes.Node) (analyser : Nodes.Analyser) :
  Nodes.get_hyper_preprocessors (Nodes.config_from_analyser self analyser)
  = match Nodes.fields self with
    | Nodes.ImageInput _ =>
        if Nodes.analyser_has_channel_dim analyser then []
        else [Nodes.DefaultHyperPreprocessor Nodes.AddOneDimension]
    | _ => []
    end
  /\ (forall shape : option Nodes.Shape,
        Nodes.get_hyper_preprocessors (Nodes.ImageInput__init__ shape)
        = [Nodes.DefaultHyperPreprocessor Nodes.AddOneDimension]).
Proof.
  split; [|reflexivity].
  destruct self as [shape0 fields0].
  unfold Nodes.get_hyper_preprocessors, Nodes.config_from_analyser.
  destruct fields0; simpl; try reflexivity.
  destruct analyser as [[|]]; reflexivity.
Qed.

(** X24.  Round trip through the adapter: after [config_from_adapter], the
    adapter a structured-data or time-series node constructs is given
    exactly the column names, column types and lookback read from the
    adapter; and [config_from_adapter] raises only what the method of
    the base class raises. *)
Theorem get_adapter_after_config_from_adapter
    (super_config_from_adapter
       : Nodes.Node -> Nodes.AdapterState -> result Nodes.Node)
    (self : Nodes.Node) (adapter : Nodes.AdapterState) :
  (forall self' : Nodes.Node,
     Nodes.config_from_adapter super_config_from_adapter self adapter
     = Ok self' ->
     match Nodes.fields self with
     | Nodes.StructuredDataInput _ _ =>
         Nodes.get_adapter self'
         = Nodes.StructuredDataInputAdapter
             (Nodes.adapter_column_names adapter)
             (Nodes.adapter_column_types adapter)
     | Nodes.TimeseriesInput _ _ _ =>
         Nodes.get_adapter self'
         = Nodes.TimeseriesInputAdapter
             (Nodes.adapter_lookback adapter)
             (Nodes.adapter_column_names adapter)
             (Nodes.adapter_column_types adapter)
     | _ => super_config_from_adapter self adapter = Ok self'
     end)
  /\ (forall e : exn,
        Nodes.config_from_adapter super_config_from_adapter self adapter
        = Raise e
        <-> super_config_from_adapter self adapter = Raise e).
Proof.
  unfold Nodes.config_from_adapter.
  destruct (Nodes.fields self) as [| c | | n t | l n t];
    try (split; [intros self' H; exact H | intros e; reflexivity]);
    (split;
     [ intros self' H;
       destruct (super_config_from_adapter self adapter); simpl in H;
       [injection H as <-; reflexivity | discriminate]
     | intros e; destruct (super_config_from_adapter self adapter); simpl;
       split; intros H; (discriminate || exact H) ]).
Qed.

(* ===================================================================== *)
(** * get_config of the nodes *)
(* ===================================================================== *)

Lemma int_of_int (z : option Z) : int_of (Dict.of_int z) = Some z.
Proof. now destruct z. Qed.

Lemma names_of_strings (names : option (list string)) :
  names_of (Dict.of_strings names) = Some names.
Proof.
  destruct names as [l|]; [|reflexivity].
  unfold Dict.of_strings, names_of. now rewrite strings_of_strings.
Qed.

Lemma types_of_string_dict (types : option (list (string * string))) :
  types_of (Dict.of_string_dict types) = Some types.
Proof.
  destruct types as [l|]; [|reflexivity].
  unfold Dict.of_string_dict, types_of.
  assert (H : fold_right
                (fun kv acc =>
                   match snd kv, acc with
                   | Dict.PStr s, Some types => Some ((fst kv, s) :: types)
                   | _, _ => None
                   end) (Some [])
                (map (fun kv : string * string =>
                        (fst kv, Dict.PStr (snd kv))) l)
              = Some l).
  { induction l as [|[k v] l IH]; simpl; [reflexivity | now rewrite IH]. }
  now rewrite H.
Qed.

(** X25.  The configuration of a time-series node holds its lookback, column
    names and column types, in place of whatever the base configuration
    had under these keys, and every other entry of the base
    configuration as it was.  Read back and handed to the constructor,
    the three entries give the fields of the node again. *)
Theorem timeseries_get_config_round_trip
    (base_config : Dict.dict) (lookback : option Z)
    (names : option (list string)) (types : option (list (string * string)))
    (shape : option Nodes.Shape) :
  let self := Nodes.TimeseriesInput__init__ lookback names types shape in
  let config := Nodes.get_config base_config self in
  Dict.get config "lookback" = Some (Dict.of_int lookback)
  /\ Dict.get config "column_names" = Some (Dict.of_strings names)
  /\ Dict.get config "column_types" = Some (Dict.of_string_dict types)
  /\ (forall k : string,
        String.eqb k "lookback" = false ->
        String.eqb k "column_names" = false ->
        String.eqb k "column_types" = false ->
        Dict.get config k = Dict.get base_config k)
  /\ (exists vl vn vt l' n' t',
        Dict.get config "lookback" = Some vl /\ int_of vl = Some l'
        /\ Dict.get config "column_names" = Some vn /\ names_of vn = Some n'
        /\ Dict.get config "column_types" = Some vt /\ types_of vt = Some t'
        /\ Nodes.TimeseriesInput__init__ l' n' t' shape = self).
Proof.
  intros self config.
  assert (Hl : Dict.get config "lookback" = Some (Dict.of_int lookback)).
  { unfold config, self, Nodes.get_config, Dict.update. simpl.
    rewrite !get_set_other by reflexivity. apply get_set_same. }
  assert (Hn : Dict.get config "column_names" = Some (Dict.of_strings names)).
  { unfold config, self, Nodes.get_config, Dict.update. simpl.
    rewrite !get_set_other by reflexivity. apply get_set_same. }
  assert (Ht : Dict.get config "column_types"
               = Some (Dict.of_string_dict types)).
  { unfold config, self, Nodes.get_config, Dict.update. simpl.
    now rewrite get_set_same. }
  repeat split; try assumption.
  - intros k H1 H2 H3.
    unfold config, self, Nodes.get_config, Dict.update. simpl.
    now rewrite !get_set_other by assumption.
  - exists (Dict.of_int lookback), (Dict.of_strings names),
      (Dict.of_string_dict types), lookback, names, types.
    rewrite int_of_int, names_of_strings, types_of_string_dict.
    repeat split; assumption.
Qed.

(** X26.  The configuration of a structured-data node holds its column names
    and column types in the same way, and no lookback of its own. *)
Theorem structured_get_config_round_trip
    (base_config : Dict.dict)
    (names : option (list string)) (types : option (list (string * string)))
    (shape : option Nodes.Shape) :
  let self := Nodes.StructuredDataInput__init__ names types shape in
  let config := Nodes.get_config base_config self in
  Dict.get config "column_names" = Some (Dict.of_strings names)
  /\ Dict.get config "column_types" = Some (Dict.of_string_dict types)
  /\ (forall k : string,
        String.eqb k "column_names" = false ->
        String.eqb k "column_types" = false ->
        Dict.get config k = Dict.get base_config k)
  /\ (exists vn vt n' t',
        Dict.get config "column_names" = Some vn /\ names_of vn = Some n'
        /\ Dict.get config "column_types" = Some vt /\ types_of vt = Some t'
        /\ Nodes.StructuredDataInput__init__ n' t' shape = self).
Proof.
  intros self config.
  assert (Hn : Dict.get config "column_names" = Some (Dict.of_strings names)).
  { unfold config, self, Nodes.get_config, Dict.update. simpl.
    rewrite !get_set_other by reflexivity. apply get_set_same. }
  assert (Ht : Dict.get config "column_types"
               = Some (Dict.of_string_dict types)).
  { unfold config, self, Nodes.get_config, Dict.update. simpl.
    now rewrite get_set_same. }
  repeat split; try assumption.
  - intros k H1 H2.
    unfold config, self, Nodes.get_config, Dict.update. simpl.
    now rewrite !get_set_other by assumption.
  - exists (Dict.of_strings names), (Dict.of_string_dict types), names, types.
    rewrite names_of_strings, types_of_string_dict.
    repeat split; assumption.
Qed.

(* ===================================================================== *)
(** * Runs of the statements above *)
(* ===================================================================== *)

Lemma get_config_carries_encoding_witness :
  Dict.get (MCE.get_config [("name", Dict.PStr "layer");
                            ("encoding", Dict.PNone)]
              (MCE.__init__ Reference.framework [INT; NONE])) "encoding"
  = Some (Dict.PList [Dict.PStr INT; Dict.PStr NONE])
  /\ Dict.get (MCE.get_config [("name", Dict.PStr "layer");
                               ("encoding", Dict.PNone)]
                 (MCE.__init__ Reference.framework [INT; NONE])) "name"
     = Some (Dict.PStr "layer").
Proof.
  destruct (get_config_carries_encoding Reference.framework
              [("name", Dict.PStr "layer"); ("encoding", Dict.PNone)]
              (MCE.__init__ Reference.framework [INT; NONE]))
    as (Henc & Hother).
  split; [exact Henc|].
  rewrite (Hother "name"); [reflexivity | | reflexivity].
  repeat constructor; simpl; intuition discriminate.
Defined.

Lemma get_adapter_after_config_from_adapter_witness :
  let adapter := {| Nodes.adapter_lookback := Some 5;
                    Nodes.adapter_column_names := Some ["t"; "x"];
                    Nodes.adapter_column_types := None |} in
  let resolve := fun (self : Nodes.Node) (_ : Nodes.AdapterState) =>
                   Ok (Nodes.set_shape self [Some 2]) in
  exists self' : Nodes.Node,
    Nodes.config_from_adapter resolve
      (Nodes.TimeseriesInput__init__ None None None None) adapter = Ok self'
    /\ Nodes.get_adapter self'
       = Nodes.TimeseriesInputAdapter (Some 5) (Some ["t"; "x"]) None.
Proof.
  intros adapter resolve. eexists. split; [reflexivity|].
  exact (proj1 (get_adapter_after_config_from_adapter resolve
                  (Nodes.TimeseriesInput__init__ None None None None)
                  adapter) _ eq_refl).
Defined.
